(** * mockfacebook: the Graph API mock engine, the test-users endpoint and
    the graph dataset SQL writer

    A shallow embedding of [graph.py], [app.py] and the [GraphDataset] part
    of [schemautil.py], with the properties of the specification stated and
    proved over it.

    Conventions of the embedding.
    - Python text is a Rocq [string]; the model covers ASCII text, for which
      [str] and [unicode] agree (same characters, same hash).
    - A Python [dict] whose order is not observed is a [gmap]; a [set] whose
      iteration order is observed is the list of its elements in iteration
      order, produced by an instance of the class [PySet]; the instance
      [cpython27] follows CPython 2.7's [setobject.c].
    - Code that can raise returns a [result]; [GraphErr] is the domain error
      vocabulary, the other constructors are the exceptions that escape the
      handler's [except GraphError] clause.
    - [json.dumps] and [json.loads] are library code and are taken as the
      class [JsonCodec]. *)

From Stdlib Require Import ZArith Ascii List OrdersEx.
From stdpp Require Import base strings list gmap fin_maps pretty sorting.

Set Warnings "-register-all,-clear-no-such-hyp".

Local Open Scope string_scope.
Local Open Scope list_scope.
Local Open Scope Z_scope.

(** ** Python text primitives *)

Module Py.

(** [s.split(sep)] for a one-character separator: never empty. *)
Fixpoint split (sep : ascii) (s : string) : list string :=
  match s with
  | EmptyString => [EmptyString]
  | String c rest =>
      if Ascii.eqb c sep then EmptyString :: split sep rest
      else match split sep rest with
           | [] => [String c EmptyString]
           | w :: ws => String c w :: ws
           end
  end.

(** [sep.join(l)]. *)
Definition join (sep : string) (l : list string) : string := String.concat sep l.

(** [s.replace(old, new)] for a one-character [old]. *)
Fixpoint replace (old : ascii) (new : string) (s : string) : string :=
  match s with
  | EmptyString => EmptyString
  | String c rest =>
      if Ascii.eqb c old then new +:+ replace old new rest
      else String c (replace old new rest)
  end.

(** [d.values()] and [d.keys()] of a dict with string keys. *)
Definition values {A : Type} (d : gmap string A) : list A := (map_to_list d).*2.

Definition keys {A : Type} (d : gmap string A) : list string := (map_to_list d).*1.

(** The order of two strings, by their characters' codes. *)
Definition str_le (a b : string) : bool :=
  match String_as_OT.compare a b with
  | Gt => false
  | _ => true
  end.

(** [sorted(d.items())]: the keys of a dict are all different, so that the
    items are ordered by their keys alone, in one possible way. *)
Definition sorted_items {A : Type} (d : gmap string A) : list (string * A) :=
  merge_sort (fun x y => str_le x.1 y.1) (map_to_list d).

(** Truth value of a string: [bool(s)]. *)
Definition truthy (s : string) : bool :=
  match s with EmptyString => false | _ => true end.

(** C's [isspace] and [isdigit] on ASCII. *)
Definition isspace (c : ascii) : bool :=
  let n := nat_of_ascii c in
  (Nat.eqb n 32 || (Nat.leb 9 n && Nat.leb n 13))%bool.

Definition isdigit (c : ascii) : bool :=
  let n := nat_of_ascii c in (Nat.leb 48 n && Nat.leb n 57)%bool.

Fixpoint lstrip (s : string) : string :=
  match s with
  | String c rest => if isspace c then lstrip rest else s
  | EmptyString => EmptyString
  end.

(** Reads the leading decimal digits of [s]: their value (with [acc] as the
    value read so far), how many were read, and the rest. *)
Fixpoint digits (acc : Z) (s : string) : Z * nat * string :=
  match s with
  | String c rest =>
      if isdigit c
      then let '(v, n, r) := digits (10 * acc + (Z.of_nat (nat_of_ascii c) - 48)) rest in
           (v, S n, r)
      else (acc, O, s)
  | EmptyString => (acc, O, EmptyString)
  end.

(** [int(s)] in base 10, as Python 2 reads it ([PyInt_FromString] over
    [PyOS_strtol]): white space, an optional sign, white space, at least one
    digit, white space.  [None] stands for [ValueError]. *)
Definition int (s : string) : option Z :=
  let s1 := lstrip s in
  let '(neg, s2) :=
    match s1 with
    | String "-" r => (true, r)
    | String "+" r => (false, r)
    | _ => (false, s1)
    end in
  let '(v, n, r) := digits 0 (lstrip s2) in
  match n, lstrip r with
  | S _, EmptyString => Some (if neg then - v else v)
  | _, _ => None
  end.

End Py.

(** ** Results of code that can raise *)

(** The error classes of [graph.py]; the constructors that take a string are
    the classes whose message template has a [%s]. *)
Inductive GraphError : Type :=
  | ObjectNotFoundError
  | ObjectsNotFoundError
  | ConnectionNotFoundError
  | AccessTokenError
  | AliasNotFoundError (names : string)
  | BadGetError
  | UnknownPathError (name : string)
  | IdSpecifiedError (name : string)
  | EmptyIdentifierError.

(** What a handler can raise: a domain error, webapp2's redirect abort
    ([self.redirect(uri, abort=True)]), or a Python run-time error. *)
Inductive exn : Type :=
  | GraphErr (e : GraphError)
  | HTTPException (code : Z) (location : string)
  | TypeError
  | ValueError
  | KeyError
  | AttributeError
  | AssertionError.

Inductive result (A : Type) : Type :=
  | Ok (a : A)
  | Raise (e : exn).
Arguments Ok {A} a.
Arguments Raise {A} e.

(** The error monad, with stdpp's [x ← r; k] notation. *)
#[global] Instance result_ret : MRet result := @Ok.
#[global] Instance result_bind : MBind result := fun A B k r =>
  match r with
  | Ok a => k a
  | Raise e => Raise e
  end.

#[global] Instance result_fmap : FMap result := fun A B f r =>
  match r with
  | Ok a => Ok (f a)
  | Raise e => Raise e
  end.

(** [assert c]. *)
Definition assert (c : bool) : result unit :=
  if c then Ok tt else Raise AssertionError.

(** ** JSON values *)

(** A decoded JSON value; an object lists its items. *)
Inductive json : Type :=
  | JNull
  | JBool (b : bool)
  | JNum (n : Z)
  | JStr (s : string)
  | JList (l : list json)
  | JObj (items : list (string * json)).

(** [json.dumps(value, indent=...)] and [json.loads(text)] ([None] where it
    raises [ValueError]). *)
Class JsonCodec : Type := {
  json_dumps : option nat -> json -> string;
  json_loads : string -> option json
}.

(** [d.get(key)] of a decoded object. *)
Fixpoint dict_get (key : string) (items : list (string * json)) : option json :=
  match items with
  | [] => None
  | (k, v) :: rest => if bool_decide (k = key) then Some v else dict_get key rest
  end.


(** ** Python sets *)

(** [set_iter l] is the order in which Python iterates over the set obtained
    by adding the items of [l], in order, to an empty set: [set(l)], and also
    the result of [a - b], which CPython builds by adding the kept entries of
    [a] in [a]'s order. *)
Class PySet : Type := {
  set_iter : list string -> list string;
  set_iter_NoDup : forall l, NoDup (set_iter l);
  set_iter_elem : forall x l, x ∈ set_iter l <-> x ∈ l
}.

(** CPython 2.7's set of strings on a 64-bit build ([Objects/setobject.c],
    [Objects/stringobject.c]), without hash randomisation (its default). *)
Module CPython.

Definition wrap (x : Z) : Z := x mod 2 ^ 64.

Definition ord (c : ascii) : Z := Z.of_nat (nat_of_ascii c).

(** [string_hash], as the unsigned machine word. *)
Definition string_hash (s : string) : Z :=
  match s with
  | EmptyString => 0
  | String c _ =>
      let x := fold_left (fun x ch => Z.lxor (wrap (1000003 * x)) (ord ch))
                         (String.list_ascii_of_string s) (wrap (Z.shiftl (ord c) 7)) in
      let x := Z.lxor x (Z.of_nat (String.length s)) in
      if x =? 2 ^ 64 - 1 then 2 ^ 64 - 2 else x
  end.

(** The hash as Python shows it: a signed [long]. *)
Definition hash (s : string) : Z :=
  let x := string_hash s in if x <? 2 ^ 63 then x else x - 2 ^ 64.

(** The table of a set: [mask + 1] slots, a power of two. *)
Definition table : Type := list (option string).

Definition PySet_MINSIZE : nat := 8.

Definition empty_table (size : nat) : table := replicate size None.

Definition mask (t : table) : Z := Z.of_nat (List.length t) - 1.

Definition entries (t : table) : list string := omap id t.

(** The probe loop of [set_insert_clean]: the slot [i & mask] is tried, then
    [i = (i << 2) + i + perturb + 1] with [perturb >>= 5].  It returns the
    first free slot; [None] when [fuel] probes found none. *)
Fixpoint probe (fuel : nat) (t : table) (i perturb : Z) : option nat :=
  let j := Z.to_nat (Z.land i (mask t)) in
  match t !! j with
  | Some None => Some j
  | _ =>
      match fuel with
      | O => None
      | S fuel' =>
          probe fuel' t (wrap (Z.shiftl i 2 + i + perturb + 1)) (Z.shiftr perturb 5)
      end
  end.

(** [set_insert_clean]: stores a key that is not in the table in the first
    free slot of its probe sequence.  The table always has a free slot and the
    sequence reaches every slot; the two fall-backs only make the function
    total. *)
Definition set_insert_clean (t : table) (key : string) : table :=
  let h := string_hash key in
  match probe (List.length t + 64)%nat t (Z.land h (mask t)) h with
  | Some j => <[j := Some key]> t
  | None =>
      match list_find (fun e => e = None) t with
      | Some (j, _) => <[j := Some key]> t
      | None => t ++ [Some key]
      end
  end.

(** The size [set_table_resize] picks: [PySet_MINSIZE] doubled until it
    exceeds [minused]. *)
Fixpoint new_size (fuel : nat) (newsize minused : nat) : nat :=
  match fuel with
  | O => newsize
  | S fuel' =>
      if (newsize <=? minused)%nat then new_size fuel' (2 * newsize)%nat minused
      else newsize
  end.

(** [set_table_resize]: a fresh table, the entries put back in slot order. *)
Definition set_table_resize (t : table) (minused : nat) : table :=
  fold_left set_insert_clean (entries t)
            (empty_table (new_size (S minused) PySet_MINSIZE minused)).

(** [set_add_key].  No entry is ever deleted here, so a key that is in the
    table is the one its probe sequence finds, and the table is left as it
    is; a new key is stored, and the table grows when it is two thirds full. *)
Definition set_add_key (t : table) (key : string) : table :=
  if bool_decide (key ∈ entries t) then t
  else
    let t' := set_insert_clean t key in
    let used := List.length (entries t') in
    if (List.length t' * 2 <=? used * 3)%nat
    then set_table_resize t' (if (50000 <? Z.of_nat used)%Z then used * 2 else used * 4)%nat
    else t'.

(** [set(l)], then [iter]: the entries in slot order. *)
Definition iter (l : list string) : list string :=
  entries (fold_left set_add_key l (empty_table PySet_MINSIZE)).

End CPython.

(** ** The database *)

(** A table is the list of its rows in the order of storage, and a query
    answers with the rows that match, in that order: the source's queries
    have no [ORDER BY], and this is the order of SQLite's table scan. *)
Module sqlite3.

(** A value of a column of [oauth_access_tokens], whose types the source
    leaves to the base schema. *)
Inductive value : Type :=
  | Null
  | Integer (n : Z)
  | Text (s : string).

#[global] Instance value_eq_dec : EqDecision value.
Proof. solve_decision. Defined.

(** What Python gets for it: [None], an [int], a [unicode]. *)
Definition to_python (v : value) : json :=
  match v with
  | Null => JNull
  | Integer n => JNum n
  | Text s => JStr s
  end.

(** A row of [graph_objects]: [id], [alias] ([None] for NULL), [data]. *)
Record GraphObject : Type := {
  obj_id : string;
  obj_alias : option string;
  obj_data : string
}.

#[global] Instance GraphObject_eq_dec : EqDecision GraphObject.
Proof. solve_decision. Defined.

(** A row of [graph_connections]: [id], [connection], [data]. *)
Record GraphConnectionRow : Type := {
  row_id : string;
  row_connection : string;
  row_data : string
}.

(** A row of [oauth_access_tokens]. *)
Record AccessToken : Type := {
  user_id : value;
  token : value
}.

(** The tables a connection reads, each in storage order. *)
Record Connection : Type := {
  graph_objects : list GraphObject;
  graph_connections : list GraphConnectionRow;
  oauth_access_tokens : list AccessToken
}.

(** The uniqueness the data model asks of [graph_objects]: ids are unique,
    aliases are unique where present, and no alias is also an id. *)
Definition well_formed (conn : Connection) : Prop :=
  NoDup (obj_id <$> graph_objects conn)
  /\ NoDup (omap obj_alias (graph_objects conn))
  /\ Forall (fun alias => alias ∉ obj_id <$> graph_objects conn)
            (omap obj_alias (graph_objects conn)).

(** [None in names] is [False]. *)
Definition alias_in (alias : option string) (names : list string) : bool :=
  match alias with
  | Some a => bool_decide (a ∈ names)
  | None => false
  end.

(** [SELECT id, alias FROM graph_objects WHERE id IN (names) OR alias IN (names)]. *)
Definition select_id_alias (conn : Connection) (names : list string)
  : list (string * option string) :=
  (fun o => (obj_id o, obj_alias o)) <$>
  filter (fun o => bool_decide (obj_id o ∈ names) || alias_in (obj_alias o) names)
         (graph_objects conn).

(** [SELECT id, data FROM graph_objects WHERE id IN (ids)]. *)
Definition select_id_data (conn : Connection) (ids : list string)
  : list (string * string) :=
  (fun o => (obj_id o, obj_data o)) <$>
  filter (fun o => obj_id o ∈ ids) (graph_objects conn).

(** [SELECT id, data FROM graph_connections WHERE id IN (ids) AND connection = ?]. *)
Definition select_connection (conn : Connection) (ids : list string) (connection : string)
  : list (string * string) :=
  (fun r => (row_id r, row_data r)) <$>
  filter (fun r => row_id r ∈ ids ∧ row_connection r = connection)
         (graph_connections conn).

(** [SELECT DISTINCT user_id, token FROM oauth_access_tokens]: each pair
    once, where it first occurs. *)
Definition select_distinct_tokens (conn : Connection) : list (value * value) :=
  reverse (remove_dups (reverse ((fun t => (user_id t, token t)) <$> oauth_access_tokens conn))).

(** Python's truth value of what a row holds: [None], [0] and [''] are
    false. *)
Definition truthy (v : value) : bool :=
  match v with
  | Null => false
  | Integer n => negb (n =? 0)
  | Text s => Py.truthy s
  end.

(** How SQLite reads the inside of a string literal, after the opening
    quote: a doubled quote stands for a quote, a single one ends the literal,
    and nothing may follow it. *)
Fixpoint read_string_body (s : string) : option string :=
  match s with
  | EmptyString => None
  | String c rest =>
      if Ascii.eqb c "'" then
        match rest with
        | EmptyString => Some EmptyString
        | String c' rest' =>
            if Ascii.eqb c' "'" then String "'" <$> read_string_body rest' else None
        end
      else String c <$> read_string_body rest
  end.

(** The text a string literal of an [INSERT] stores. *)
Definition read_string_literal (s : string) : option string :=
  match s with
  | String c body => if Ascii.eqb c "'" then read_string_body body else None
  | EmptyString => None
  end.

End sqlite3.

(** ** schemautil.py: the graph schema and the graph dataset *)

Module schemautil.

Definition ALIAS_FIELD : string := "username".

Definition newline : string := String "010" EmptyString.

(** [Column], [Data] and [Connection] are the source's named tuples. *)
Record Column : Type := {
  col_name : string;
  fb_type : string;
  sqlite_type : string;
  indexable : bool
}.

Record Data : Type := {
  d_table : string;
  d_query : string;
  d_data : json
}.

Record Connection : Type := {
  c_table : string;
  c_id : string;
  c_name : string;
  c_data : json
}.

(** [GraphSchema]: [tables], and [connections], the connection names legal
    for each table. *)
Record GraphSchema : Type := {
  tables : gmap string (list Column);
  connections : gmap string (list string)
}.

(** [GraphDataset]: [data] maps an object id to its [Data], [connections]
    holds the [Connection]s. *)
Record GraphDataset : Type := {
  data : gmap string Data;
  ds_connections : gmap string Connection
}.

(** [obj[key]] on a decoded value: only an object can be indexed by a string. *)
Definition getitem (obj : json) (key : string) : result json :=
  match obj with
  | JObj items =>
      match dict_get key items with
      | Some v => Ok v
      | None => Raise KeyError
      end
  | _ => Raise TypeError
  end.

(** [obj.get(key)]: [None] when the key is absent. *)
Definition get (obj : json) (key : string) : result json :=
  match obj with
  | JObj items => Ok (default JNull (dict_get key items))
  | _ => Raise AttributeError
  end.

(** [for x in obj]: the items of a list, the keys of an object, the characters
    of a string. *)
Definition iterate (obj : json) : result (list json) :=
  match obj with
  | JList l => Ok l
  | JObj items => Ok (JStr <$> items.*1)
  | JStr s => Ok ((fun c => JStr (String c EmptyString)) <$> String.list_ascii_of_string s)
  | _ => Raise TypeError
  end.

Section with_json.
Context `{JsonCodec}.

(** [values_to_sqlite]: the cases of the loop body, then the join. *)
Definition value_to_sqlite (val : json) : string :=
  match val with
  | JBool b => if b then "1" else "0"
  | JStr s => "'" +:+ Py.replace "'" "''" s +:+ "'"
  | JNull => "NULL"
  | _ => json_dumps None val
  end.

Definition values_to_sqlite (input : list json) : string :=
  Py.join ("," +:+ newline +:+ "  ") (value_to_sqlite <$> input).

(** [make_insert(table, *values)]. *)
Definition make_insert (table : string) (values : list json) : string :=
  "INSERT INTO " +:+ table +:+ " VALUES (" +:+ newline +:+ "  "
    +:+ values_to_sqlite values +:+ newline +:+ ");".

(** The values [to_sql] hands to [make_insert] for one object. *)
Definition object_values (d : Data) : result (list json) :=
  id ← getitem (d_data d) "id";
  alias ← get (d_data d) ALIAS_FIELD;
  Ok [id; alias; JStr (json_dumps None (d_data d))].

(** The values [to_sql] hands to [make_insert] for one element of a connection. *)
Definition connection_values (conn : Connection) (object : json) : list json :=
  [JStr (c_id conn); JStr (c_name conn); JStr (json_dumps None object)].

(** The first loop of [to_sql], appending to [output]. *)
Fixpoint objects_to_sql (ds : list Data) (output : list string) : result (list string) :=
  match ds with
  | [] => Ok output
  | d :: rest =>
      vs ← object_values d;
      objects_to_sql rest (output ++ [make_insert "graph_objects" vs])
  end.

(** The second loop of [to_sql]. *)
Fixpoint connections_to_sql (conns : list Connection) (output : list string)
  : result (list string) :=
  match conns with
  | [] => Ok output
  | conn :: rest =>
      seq ← getitem (c_data conn) "data";
      objects ← iterate seq;
      connections_to_sql rest
        (output ++ ((fun object => make_insert "graph_connections"
                                     (connection_values conn object)) <$> objects))
  end.

(** [GraphDataset.to_sql]. *)
Definition to_sql (self : GraphDataset) : result string :=
  output ← objects_to_sql (Py.values (data self)) ["BEGIN TRANSACTION;"];
  output ← connections_to_sql (Py.values (ds_connections self)) output;
  Ok (Py.join newline (output ++ ["COMMIT;"])).

End with_json.

(** [Schema.to_sql]: a [CREATE TABLE] for each table, the tables in the order
    of their names; [tables] is [self.tables]. *)
Definition create_table (item : string * list Column) : string :=
  let cols_str :=
    Py.join ("," +:+ newline)
      ((fun c => "  " +:+ col_name c +:+ " " +:+ sqlite_type c) <$> item.2) in
  newline +:+ "CREATE TABLE `" +:+ item.1 +:+ "` (" +:+ newline
    +:+ cols_str +:+ newline +:+ ");" +:+ newline.

Definition Schema_to_sql (tables : gmap string (list Column)) : string :=
  Py.join "" (create_table <$> Py.sorted_items tables).

(** [FqlDataset]: the tables of its schema, and [data], from table name to
    [Data]. *)
Record FqlDataset : Type := {
  schema_tables : gmap string (list Column);
  fql_data : gmap string Data
}.

Section schema.
Context `{JsonCodec}.

(** [Schema.get_column]; [tables] is [self.tables].  The loop returns the
    first column of that name and falls through to [None]. *)
Definition get_column (tables : gmap string (list Column)) (table column : string)
  : result (option Column) :=
  match tables !! table with
  | Some cols => Ok (snd <$> list_find (fun col => col_name col = column) cols)
  | None => Raise KeyError
  end.

(** The body of the loop of [json_to_sqlite]: [object.get(col.name, '')],
    encoded as JSON text when it is a list or a dict. *)
Definition column_value (items : list (string * json)) (col : Column) : json :=
  let val := default (JStr "") (dict_get (col_name col) items) in
  match val with
  | JList _ | JObj _ => JStr (json_dumps None val)
  | _ => val
  end.

(** [Schema.json_to_sqlite]; [object.get] is only reached when the table has
    a column. *)
Definition json_to_sqlite (tables : gmap string (list Column)) (object : json)
    (table : string) : result string :=
  match tables !! table with
  | None => Raise KeyError
  | Some [] => Ok (values_to_sqlite [])
  | Some columns =>
      match object with
      | JObj items => Ok (values_to_sqlite (column_value items <$> columns))
      | _ => Raise AttributeError
      end
  end.

(** The body of the inner loop of [sqlite_to_json] for one cell: the value as
    SQLite gives it, except that a true value of a column without SQLite
    type is read as JSON ([json.loads] wants text) and that a column of type
    [bool] gives a boolean. *)
Definition cell_to_json (column : option Column) (val : sqlite3.value) : result json :=
  match column with
  | Some c =>
      if sqlite3.truthy val && negb (Py.truthy (sqlite_type c)) then
        match val with
        | sqlite3.Text text =>
            match json_loads text with
            | Some v => Ok v
            | None => Raise ValueError
            end
        | _ => Raise TypeError
        end
      else if bool_decide (fb_type c = "bool") then Ok (JBool (sqlite3.truthy val))
      else Ok (sqlite3.to_python val)
  | None => Ok (sqlite3.to_python val)
  end.

(** The inner loop, over [zip(colnames, columns, row)]. *)
Fixpoint row_to_json (cells : list (string * option Column * sqlite3.value))
    (object : gmap string json) : result (gmap string json) :=
  match cells with
  | [] => Ok object
  | (colname, column, val) :: rest =>
      v ← cell_to_json column val;
      row_to_json rest (<[colname := v]> object)
  end.

(** [Schema.sqlite_to_json]; [description] holds the column names of the
    cursor and [rows] is [cursor.fetchall()]. *)
Definition sqlite_to_json (tables : gmap string (list Column))
    (description : list string) (rows : list (list sqlite3.value)) (table : string)
  : result (list (gmap string json)) :=
  columns ← mapM (get_column tables table) description;
  mapM (fun row => row_to_json (zip (zip description columns) row) ∅) rows.

(** The comment block and the [INSERT] statement of [FqlDataset.to_sql]. *)
Definition table_comment (table query : string) : string :=
  newline +:+ "-- " +:+ table +:+ newline +:+ "--" +:+ newline
    +:+ "-- " +:+ query +:+ newline.

Definition fql_insert (table columns_str values_str : string) : string :=
  "INSERT INTO `" +:+ table +:+ "` (" +:+ newline +:+ "  " +:+ columns_str +:+ newline
    +:+ ") VALUES (" +:+ newline +:+ "  " +:+ values_str +:+ newline +:+ ");" +:+ newline.

Definition columns_str (cols : list Column) : string :=
  Py.join ", " ((fun col => "`" +:+ col_name col +:+ "`") <$> cols).

(** The inner loop of [FqlDataset.to_sql], over the objects of a table. *)
Fixpoint fql_objects_to_sql (tables : gmap string (list Column)) (table columns : string)
    (objects : list json) (output : list string) : result (list string) :=
  match objects with
  | [] => Ok output
  | object :: rest =>
      values_str ← json_to_sqlite tables object table;
      fql_objects_to_sql tables table columns rest
        (output ++ [fql_insert table columns values_str])
  end.

(** The outer loop, over the sorted items of [data]. *)
Fixpoint fql_tables_to_sql (tables : gmap string (list Column))
    (items : list (string * Data)) (output : list string) : result (list string) :=
  match items with
  | [] => Ok output
  | (table, d) :: rest =>
      let output := output ++ [table_comment table (d_query d)] in
      match tables !! table with
      | None => Raise KeyError
      | Some cols =>
          objects ← iterate (d_data d);
          output ← fql_objects_to_sql tables table (columns_str cols) objects output;
          fql_tables_to_sql tables rest output
      end
  end.

(** [FqlDataset.to_sql]. *)
Definition FqlDataset_to_sql (self : FqlDataset) : result string :=
  output ← fql_tables_to_sql (schema_tables self) (Py.sorted_items (fql_data self))
             ["BEGIN TRANSACTION;" +:+ newline];
  Ok (Py.join newline (output ++ ["COMMIT;"])).

End schema.

End schemautil.

(** ** graph.py *)

Module graph.

Import sqlite3.

Definition REDIRECT_CONNECTION : string := "picture".

Definition quote : string := String "034" EmptyString.
Definition newline : string := schemautil.newline.

(** The class attribute [message] after [__init__] has filled the template
    in with the constructor's argument. *)
Definition message (e : GraphError) : string :=
  match e with
  | ObjectNotFoundError => "false"
  | ObjectsNotFoundError => "[" +:+ newline +:+ newline +:+ "]"
  | ConnectionNotFoundError =>
      "{" +:+ newline +:+ "  " +:+ quote +:+ "data" +:+ quote +:+ ": [" +:+ newline
          +:+ "  ]" +:+ newline +:+ "}"
  | AccessTokenError => "A user access token is required to request this resource."
  | AliasNotFoundError names =>
      "(#803) Some of the aliases you requested do not exist: " +:+ names
  | BadGetError => "Unsupported get request."
  | UnknownPathError name => "Unknown path components: /" +:+ name
  | IdSpecifiedError name =>
      "Invalid token: " +:+ quote +:+ name +:+ quote
        +:+ ".  An ID has already been specified."
  | EmptyIdentifierError => "Cannot specify an empty identifier"
  end.

(** The class attribute [type]. *)
Definition type (e : GraphError) : option string :=
  match e with
  | ObjectNotFoundError | ObjectsNotFoundError | ConnectionNotFoundError => None
  | BadGetError => Some "GraphMethodException"
  | AccessTokenError | AliasNotFoundError _ | UnknownPathError _
  | IdSpecifiedError _ | EmptyIdentifierError => Some "OAuthException"
  end.

(** The object [{'error': {'message': ..., 'type': ...}}]. *)
Definition error_object (msg type : string) : json :=
  JObj [("error", JObj [("message", JStr msg); ("type", JStr type)])].

(** [NameDict]: the dict from id to requested name, and [single]. *)
Record NameDict : Type := {
  names_by_id : gmap string string;
  single : bool
}.

Definition is_int (str : string) : bool :=
  match Py.int str with
  | Some _ => true
  | None => false
  end.

Definition not_int (str : string) : bool := negb (is_int str).

(** The request: its query arguments, in order. *)
Record Request : Type := {
  query : list (string * string)
}.

(** [request.arguments()] and [request.get(name)] (the first value, [''] when
    there is none). *)
Definition arguments (request : Request) : list string := (query request).*1.

Definition request_get (request : Request) (name : string) : string :=
  default "" ((fun found => found.2.2) <$> list_find (fun kv => kv.1 = name) (query request)).

(** The response: webapp2 creates it with status 200 and an empty body. *)
Record Response : Type := {
  status : Z;
  headers : list (string * string);
  body : string
}.

Definition new_response : Response :=
  {| status := 200; headers := []; body := "" |}.

Definition set_header (name value : string) (r : Response) : Response :=
  {| status := status r;
     headers := filter (fun h => h.1 ≠ name) (headers r) ++ [(name, value)];
     body := body r |}.

Definition write (text : string) (r : Response) : Response :=
  {| status := status r; headers := headers r; body := body r +:+ text |}.

(** The response once a handler has set the content type and written
    [text] to a new response. *)
Definition written (text : string) : Response :=
  {| status := 200;
     headers := [("Content-Type", "text/plain; charset=utf-8")];
     body := text |}.

(** The class attributes [init] sets. *)
Record Handler : Type := {
  conn : Connection;
  me : Z;
  schema : schemautil.GraphSchema;
  all_connections : gset string
}.

(** [init(cls, conn, me)]; [read] stands for [GraphSchema.read()]. *)
Definition init (conn : Connection) (me : Z) (read : schemautil.GraphSchema) : Handler :=
  {| conn := conn;
     me := me;
     schema := read;
     all_connections :=
       foldl (fun acc names => acc ∪ list_to_set names) ∅
             (Py.values (schemautil.connections read)) |}.

(** [webapp2]'s [redirect(uri, abort=True)]: it reads [uri] as a string and
    raises the 302 response that carries it as [Location].  (webapp2 first
    resolves a relative [uri] against the url of the request; the model keeps
    the uri as it is given.) *)
Definition redirect {A : Type} (uri : json) : result A :=
  match uri with
  | JStr location => Raise (HTTPException 302 location)
  | _ => Raise AttributeError
  end.

(** For the statements about [prepare_ids]: the names a request asks for,
    as it writes them: the path identifier, or the items of [ids]. *)
Definition requested_list (request : Request) (path_id : string) : list string :=
  if Py.truthy path_id then [path_id] else Py.split "," (request_get request "ids").

Section handlers.
Context `{PySet} `{JsonCodec}.

(** [GraphError.__unicode__]. *)
Definition unicode (e : GraphError) : string :=
  match type e with
  | Some t => json_dumps None (error_object (message e) t)
  | None => message e
  end.

Definition qmarks (values : list string) : string :=
  Py.join "," (replicate (List.length values) "?").

(** [json.loads] as a step that can raise. *)
Definition loads (text : string) : result json :=
  match json_loads text with
  | Some v => Ok v
  | None => Raise ValueError
  end.

(** [namedict[id]]. *)
Definition getitem {A : Type} (d : gmap string A) (key : string) : result A :=
  match d !! key with
  | Some v => Ok v
  | None => Raise KeyError
  end.

(** A set is true when it is not empty, [None] is false. *)
Definition set_truthy (names : option (list string)) : bool :=
  match names with
  | Some (_ :: _) => true
  | _ => false
  end.

(** The names the request asks for (the first part of [prepare_ids]): the
    set [names] when the checks on it pass. *)
Definition requested_names (request : Request) (path_id : string)
  : result (list string) :=
  let names :=
    if bool_decide ("ids" ∈ arguments request)
    then Some (set_iter (Py.split "," (request_get request "ids")))
    else None in
  names ← (if Py.truthy path_id
           then if set_truthy names
                then Raise (GraphErr (IdSpecifiedError path_id))
                else Ok (Some (set_iter [path_id]))
           else Ok names);
  match names with
  | None => Raise TypeError
  | Some names =>
      if forallb (fun name => Py.truthy name && negb (bool_decide (name = "0"))) names
      then Ok names
      else Raise (GraphErr EmptyIdentifierError)
  end.

(** [alias if alias in names else id]. *)
Definition name_for (names : list string) (id : string) (alias : option string) : string :=
  match alias with
  | Some a => if bool_decide (a ∈ names) then a else id
  | None => id
  end.

(** The loop over [cursor.fetchall()] that fills [namedict]. *)
Fixpoint fill_namedict (names : list string) (rows : list (string * option string))
    (namedict : gmap string string) : result (gmap string string) :=
  match rows with
  | [] => Ok namedict
  | (id, alias) :: rest =>
      _ ← assert (bool_decide (id ∈ names) || alias_in alias names);
      fill_namedict names rest (<[id := name_for names id alias]> namedict)
  end.

(** [names - set(namedict.values() + namedict.keys())]. *)
Definition not_found_names (names : list string) (namedict : gmap string string)
  : list string :=
  set_iter (filter (fun name => name ∉ (Py.values namedict ++ Py.keys namedict))
                   names).

(** [BaseHandler.prepare_ids]. *)
Definition prepare_ids (self : Handler) (request : Request) (path_id : string)
  : result NameDict :=
  names ← requested_names request path_id;
  namedict ← fill_namedict names (select_id_alias (conn self) names) ∅;
  let not_found := not_found_names names namedict in
  match not_found with
  | [] => Ok {| names_by_id := namedict; single := Py.truthy path_id |}
  | _ :: _ =>
      let aliases := filter (fun name => not_int name) not_found in
      match aliases with
      | _ :: _ => Raise (GraphErr (AliasNotFoundError (Py.join "," aliases)))
      | [] =>
          if Py.truthy path_id then Raise (GraphErr ObjectNotFoundError)
          else Raise (GraphErr ObjectsNotFoundError)
      end
  end.

(** The shaping of [resp] in [get]: for a single request [[]] when the dict
    is empty, else its only value under [assert len(resp) == 1]. *)
Definition shape (namedict : NameDict) (resp : gmap string json) : result json :=
  if single namedict then
    match map_to_list resp with
    | [] => Ok (JList [])
    | [(_, v)] => Ok v
    | _ => Raise AssertionError
    end
  else Ok (JObj (map_to_list resp)).

(** [BaseHandler.get]; [_get] is the method a subclass overrides.  Only a
    [GraphError] is caught. *)
Definition get (_get : NameDict -> result (gmap string json))
    (self : Handler) (request : Request) (id : string) : result Response :=
  let attempt :=
    namedict ← prepare_ids self request id;
    resp ← _get namedict;
    resp ← shape namedict resp;
    Ok (json_dumps None resp) in
  resp ← match attempt with
         | Raise (GraphErr e) => Ok (unicode e)
         | other => other
         end;
  Ok (write resp (set_header "Content-Type" "text/plain; charset=utf-8" new_response)).

(** The dict [ObjectHandler._get] builds from the rows, one item at a time. *)
Fixpoint object_dict (namedict : gmap string string) (rows : list (string * string))
    (resp : gmap string json) : result (gmap string json) :=
  match rows with
  | [] => Ok resp
  | (id, data) :: rest =>
      name ← getitem namedict id;
      value ← loads data;
      object_dict namedict rest (<[name := value]> resp)
  end.

(** [ObjectHandler._get]. *)
Definition ObjectHandler__get (self : Handler) (namedict : NameDict)
  : result (gmap string json) :=
  let ids := Py.keys (names_by_id namedict) in
  object_dict (names_by_id namedict) (select_id_data (conn self) ids) ∅.

Definition ObjectHandler_get (self : Handler) (request : Request) (id : string)
  : result Response :=
  get (ObjectHandler__get self) self request id.

(** The loop [resp[namedict[id]]['data'].append(json.loads(data))]; [resp]
    holds, for each name, the list under its ['data']. *)
Fixpoint append_rows (namedict : gmap string string) (rows : list (string * string))
    (resp : gmap string (list json)) : result (gmap string (list json)) :=
  match rows with
  | [] => Ok resp
  | (id, data) :: rest =>
      name ← getitem namedict id;
      entry ← getitem resp name;
      value ← loads data;
      append_rows namedict rest (<[name := (entry ++ [value])]> resp)
  end.

(** The object [{'data': [...]}]. *)
Definition data_object (l : list json) : json := JObj [("data", JList l)].

(** [dict((name, {'data': []}) for name in names)]. *)
Definition empty_lists (names : list string) : gmap string (list json) :=
  list_to_map ((fun name => (name, @nil json)) <$> names).

(** The statement [if connection == REDIRECT_CONNECTION and rows:
    self.redirect(json.loads(rows[0][1]), abort=True)]. *)
Definition redirect_first (connection : string) (rows : list (string * string))
  : result unit :=
  if bool_decide (connection = REDIRECT_CONNECTION) then
    match rows with
    | (_, data) :: _ => uri ← loads data; redirect uri
    | [] => Ok tt
    end
  else Ok tt.

(** [ConnectionHandler._get]. *)
Definition ConnectionHandler__get (self : Handler) (connection : string)
    (namedict : NameDict) : result (gmap string json) :=
  if negb (bool_decide (connection ∈ all_connections self))
  then Raise (GraphErr (UnknownPathError connection))
  else
    let ids := Py.keys (names_by_id namedict) in
    let rows := select_connection (conn self) ids connection in
    (_ ← redirect_first connection rows;
     resp ← append_rows (names_by_id namedict) rows
              (empty_lists (Py.values (names_by_id namedict)));
     Ok (data_object <$> resp) : result (gmap string json)).

Definition ConnectionHandler_get (self : Handler) (request : Request)
    (id connection : string) : result Response :=
  get (ConnectionHandler__get self connection) self request id.

(** For the statements about [ConnectionHandler._get]: the decoded data of
    the rows whose id was requested as [name], in the order of the rows. *)
Definition data_for (namedict : gmap string string) (name : string)
    (rows : list (string * string)) : list json :=
  omap (fun row => if bool_decide (namedict !! row.1 = Some name)
                   then json_loads row.2 else None) rows.

End handlers.

End graph.

(** ** app.py *)

Module app.

Import sqlite3.

Section with_json.
Context `{JsonCodec}.

(** The dict [results] of [TestUsersHandler.get]. *)
Definition results (rows : list (value * value)) : json :=
  JObj [("data",
         JList ((fun row => JObj [("id", to_python row.1);
                                  ("access_token", to_python row.2)]) <$> rows))].

(** [TestUsersHandler.get(app_id)]. *)
Definition TestUsersHandler_get (conn : Connection) (app_id : string) : graph.Response :=
  let rows := select_distinct_tokens conn in
  graph.write (json_dumps (Some 2%nat) (results rows))
    (graph.set_header "Content-Type" "text/plain; charset=utf-8" graph.new_response).

End with_json.

End app.

(** ** The fixture of the test suite *)

(** The rows [graph_test.py] inserts, a schema with the connections its tests
    use, and a codec that renders in [json.dumps]'s layout and decodes the
    fixture's payloads. *)
Module Fixture.

Import sqlite3 graph.

Definition quoted (s : string) : string := quote +:+ s +:+ quote.

Fixpoint render (indent : option nat) (level : nat) (v : json) : string :=
  let nl (level : nat) :=
    match indent with
    | Some n => newline +:+ String.concat "" (replicate (n * level)%nat " ")
    | None => ""
    end in
  let sep := ", " in
  match v with
  | JNull => "null"
  | JBool b => if b then "true" else "false"
  | JNum n => pretty n
  | JStr s => quoted s
  | JList [] => "[]"
  | JList l =>
      "[" +:+ nl (S level)
          +:+ String.concat (sep +:+ nl (S level)) (map (render indent (S level)) l)
          +:+ nl level +:+ "]"
  | JObj [] => "{}"
  | JObj items =>
      "{" +:+ nl (S level)
          +:+ String.concat (sep +:+ nl (S level))
                (map (fun kv => quoted kv.1 +:+ ": " +:+ render indent (S level) kv.2) items)
          +:+ nl level +:+ "}"
  end.

Definition alice : json := JObj [("id", JStr "1"); ("foo", JStr "bar")].
Definition bob : json := JObj [("id", JStr "2"); ("inner", JObj [("foo", JStr "baz")])].

Definition known : list json :=
  [alice; bob; JObj [("id", JStr "3")]; JObj [("id", JStr "4")]; JObj [("id", JStr "5")];
   JStr "http://alice/picture"; JStr "http://bob/picture"].

#[global] Instance codec : JsonCodec :=
  {| json_dumps indent v := render indent 0 v;
     json_loads text := snd <$> list_find (fun v => render None 0 v = text) known |}.

Definition alice_row : GraphObject :=
  {| obj_id := "1"; obj_alias := Some "alice"; obj_data := render None 0 alice |}.

Definition db : Connection :=
  {| graph_objects :=
       [ alice_row;
         {| obj_id := "2"; obj_alias := Some "bob"; obj_data := render None 0 bob |} ];
     graph_connections :=
       [ {| row_id := "1"; row_connection := "albums"; row_data := render None 0 (JObj [("id", JStr "3")]) |};
         {| row_id := "1"; row_connection := "albums"; row_data := render None 0 (JObj [("id", JStr "4")]) |};
         {| row_id := "2"; row_connection := "albums"; row_data := render None 0 (JObj [("id", JStr "5")]) |};
         {| row_id := "1"; row_connection := "picture"; row_data := quoted "http://alice/picture" |};
         {| row_id := "2"; row_connection := "picture"; row_data := quoted "http://bob/picture" |} ];
     oauth_access_tokens :=
       [ {| user_id := Integer 7; token := Text "tok7" |};
         {| user_id := Integer 8; token := Text "tok8" |};
         {| user_id := Integer 7; token := Text "tok7" |} ] |}.

Definition graph_schema : schemautil.GraphSchema :=
  {| schemautil.tables := ∅;
     schemautil.connections := {[ "user" := ["albums"; "family"; "picture"] ]} |}.

Definition handler : Handler := init db 1 graph_schema.

(** A dataset of two objects, one with a [username], and a connection of
    two elements. *)
Definition carol : json := JObj [("id", JStr "6"); ("username", JStr "carol")].

Definition dataset : schemautil.GraphDataset :=
  {| schemautil.data :=
       {[ "1" := {| schemautil.d_table := "user"; schemautil.d_query := "1";
                    schemautil.d_data := alice |};
          "6" := {| schemautil.d_table := "user"; schemautil.d_query := "carol";
                    schemautil.d_data := carol |} ]};
     schemautil.ds_connections :=
       {[ "1/albums" :=
            {| schemautil.c_table := "user"; schemautil.c_id := "1";
               schemautil.c_name := "albums";
               schemautil.c_data :=
                 JObj [("data", JList [JObj [("id", JStr "3")]; JObj [("id", JStr "4")]])] |} ]} |}.

(** A table with a column of JSON text and a column of text, an object for
    it, and a dataset with an object that has no [id]. *)
Definition album_column : schemautil.Column :=
  {| schemautil.col_name := "album"; schemautil.fb_type := "object";
     schemautil.sqlite_type := ""; schemautil.indexable := false |}.

Definition name_column : schemautil.Column :=
  {| schemautil.col_name := "name"; schemautil.fb_type := "string";
     schemautil.sqlite_type := "TEXT"; schemautil.indexable := true |}.

Definition photo : list (string * json) :=
  [("name", JStr "it's me"); ("album", JObj [("id", JStr "3")])].

Definition dataset_without_id : schemautil.GraphDataset :=
  {| schemautil.data :=
       {[ "1" := {| schemautil.d_table := "user"; schemautil.d_query := "1";
                    schemautil.d_data := alice |};
          "7" := {| schemautil.d_table := "user"; schemautil.d_query := "7";
                    schemautil.d_data := JObj [("username", JStr "dave")] |} ]};
     schemautil.ds_connections := ∅ |}.

Definition fql_dataset : schemautil.FqlDataset :=
  {| schemautil.schema_tables := {[ "photo" := [name_column; album_column] ]};
     schemautil.fql_data :=
       {[ "photo" := {| schemautil.d_table := "photo";
                        schemautil.d_query := "SELECT name, album FROM photo";
                        schemautil.d_data := JList [JObj photo] |} ]} |}.

Definition ids (s : string) : Request := {| query := [("ids", s)] |}.
Definition no_query : Request := {| query := [] |}.

End Fixture.

(** * Properties *)

(** Settles a decidable statement about concrete data by evaluating its
    decision procedure. *)
Ltac decide_by_evaluation := apply (bool_decide_unpack _); vm_compute; exact I.

(** ** CPython's set is a set *)

Section cpython_facts.
Import CPython.

Lemma entries_store (t : table) (j : nat) (key : string) :
  t !! j = Some None -> entries (<[j := Some key]> t) ≡ₚ key :: entries t.
Proof.
  revert j. induction t as [|e t IH]; intros [|j] Hj; simplify_eq/=.
  - reflexivity.
  - unfold entries in *. destruct e as [k|]; simpl.
    + rewrite (IH j Hj). apply Permutation_swap.
    + apply (IH j Hj).
Qed.

Lemma entries_snoc (t : table) (key : string) :
  entries (t ++ [Some key]) = entries t ++ [key].
Proof. unfold entries. by rewrite omap_app. Qed.

Lemma entries_empty_table (n : nat) : entries (empty_table n) = [].
Proof. induction n as [|n IH]; [done|]. apply IH. Qed.

Lemma probe_free (fuel : nat) (t : table) (i perturb : Z) (j : nat) :
  probe fuel t i perturb = Some j -> t !! j = Some None.
Proof.
  revert i perturb. induction fuel as [|fuel IH]; intros i perturb; simpl.
  - destruct (t !! Z.to_nat (Z.land i (mask t))) as [[k|]|] eqn:E; naive_solver.
  - destruct (t !! Z.to_nat (Z.land i (mask t))) as [[k|]|] eqn:E; naive_solver.
Qed.

Lemma set_insert_clean_entries (t : table) (key : string) :
  entries (set_insert_clean t key) ≡ₚ key :: entries t.
Proof.
  unfold set_insert_clean.
  destruct (probe _ t _ _) as [j|] eqn:Hp.
  - apply entries_store. by eapply probe_free.
  - destruct (list_find _ t) as [[j e]|] eqn:Hf.
    + apply list_find_Some in Hf as (Hj & -> & _). by apply entries_store.
    + rewrite entries_snoc. by rewrite Permutation_app_comm.
Qed.

Lemma fold_insert_clean_entries (l : list string) (t : table) :
  entries (fold_left set_insert_clean l t) ≡ₚ (l ++ entries t).
Proof.
  revert t. induction l as [|k l IH]; intros t; simpl; [done|].
  rewrite IH, set_insert_clean_entries. by rewrite Permutation_middle.
Qed.

Lemma set_table_resize_entries (t : table) (minused : nat) :
  entries (set_table_resize t minused) ≡ₚ entries t.
Proof.
  unfold set_table_resize.
  rewrite fold_insert_clean_entries, entries_empty_table. by rewrite app_nil_r.
Qed.

Lemma set_add_key_entries (t : table) (key : string) :
  key ∉ entries t -> entries (set_add_key t key) ≡ₚ key :: entries t.
Proof.
  intros Hk. unfold set_add_key. rewrite bool_decide_eq_false_2 by done.
  cbv zeta. case_match.
  - rewrite set_table_resize_entries. apply set_insert_clean_entries.
  - apply set_insert_clean_entries.
Qed.

Lemma set_add_key_present (t : table) (key : string) :
  key ∈ entries t -> set_add_key t key = t.
Proof. intros Hk. unfold set_add_key. by rewrite bool_decide_eq_true_2. Qed.

Lemma fold_add_key_NoDup (l : list string) (t : table) :
  NoDup (entries t) -> NoDup (entries (fold_left set_add_key l t)).
Proof.
  revert t. induction l as [|k l IH]; intros t Ht; simpl; [done|].
  apply IH. destruct (decide (k ∈ entries t)) as [Hk|Hk].
  - by rewrite set_add_key_present.
  - rewrite set_add_key_entries by done. by constructor.
Qed.

Lemma fold_add_key_elem (x : string) (l : list string) (t : table) :
  x ∈ entries (fold_left set_add_key l t) <-> x ∈ l ∨ x ∈ entries t.
Proof.
  revert t. induction l as [|k l IH]; intros t; simpl.
  - rewrite elem_of_nil. tauto.
  - rewrite IH, elem_of_cons. destruct (decide (k ∈ entries t)) as [Hk|Hk].
    + rewrite set_add_key_present by done. naive_solver.
    + rewrite set_add_key_entries, elem_of_cons by done. tauto.
Qed.

Lemma iter_NoDup (l : list string) : NoDup (iter l).
Proof.
  apply fold_add_key_NoDup. rewrite entries_empty_table. constructor.
Qed.

Lemma iter_elem (x : string) (l : list string) : x ∈ iter l <-> x ∈ l.
Proof.
  unfold iter. rewrite fold_add_key_elem, entries_empty_table, elem_of_nil. tauto.
Qed.

End cpython_facts.

(** The model against values CPython 2.7 prints: [hash('a')], and the order
    of [set(['bar', 'foo'])] and of [set(['alice', 'bob'])]. *)
Example cpython_hash_and_order :
  CPython.hash "a" = 12416037344
  /\ CPython.iter ["bar"; "foo"] = ["foo"; "bar"]
  /\ CPython.iter ["foo"; "bar"] = ["foo"; "bar"]
  /\ CPython.iter ["alice"; "bob"] = ["bob"; "alice"].
Proof. split_and!; vm_compute; reflexivity. Qed.

(** Python 2.7 as CPython runs it. *)
#[global] Instance cpython27 : PySet :=
  {| set_iter := CPython.iter;
     set_iter_NoDup := iter_NoDup;
     set_iter_elem := iter_elem |}.


(** ** Sets, whatever their iteration order *)

Section set_facts.
Context `{PySet}.

Lemma set_iter_nil : set_iter [] = [].
Proof.
  apply elem_of_nil_inv. intros x. rewrite set_iter_elem. apply not_elem_of_nil.
Qed.

Lemma set_iter_cons_inv (x : string) (l : list string) : set_iter (x :: l) <> [].
Proof.
  intros E. assert (x ∈ set_iter (x :: l)) as Hx by (apply set_iter_elem; left).
  rewrite E in Hx. by apply elem_of_nil in Hx.
Qed.

Lemma set_iter_singleton (x : string) : set_iter [x] = [x].
Proof.
  pose proof (set_iter_NoDup [x]) as Hnd.
  pose proof (fun y => set_iter_elem y [x]) as He.
  destruct (set_iter [x]) as [|a [|b l]].
  - specialize (He x). rewrite elem_of_nil, list_elem_of_singleton in He. naive_solver.
  - f_equal. apply list_elem_of_singleton, He. left.
  - assert (a = x) as -> by (apply list_elem_of_singleton, He; left).
    assert (b = x) as -> by (apply list_elem_of_singleton, He; right; left).
    apply NoDup_cons in Hnd as [Hx _]. exfalso. apply Hx. left.
Qed.

End set_facts.

Lemma split_cons (sep : ascii) (s : string) : exists w ws, Py.split sep s = w :: ws.
Proof.
  induction s as [|c s (w & ws & IH)]; simpl; [by eauto|].
  destruct (Ascii.eqb c sep); [by eauto|]. rewrite IH. eauto.
Qed.

(** ** Name resolution *)

Section resolution.
Import sqlite3 graph.
Context `{PySet}.

(** The set [names] of a request with an [ids] argument is true. *)
Lemma ids_truthy (request : Request) :
  set_truthy (Some (set_iter (Py.split "," (request_get request "ids")))) = true.
Proof.
  destruct (split_cons "," (request_get request "ids")) as (w & ws & ->).
  pose proof (set_iter_cons_inv w ws). simpl. by destruct (set_iter (w :: ws)).
Qed.

(** The assertion in the loop of [prepare_ids] holds for the rows the query
    returns, so the loop ends with a dict; its entries come from the rows. *)
Lemma fill_namedict_spec (names : list string) (rows : list (string * option string))
    (namedict : gmap string string) :
  (forall id alias, (id, alias) ∈ rows -> id ∈ names \/ alias_in alias names) ->
  exists namedict',
    fill_namedict names rows namedict = Ok namedict'
    /\ (forall id name, namedict' !! id = Some name ->
          (exists alias, (id, alias) ∈ rows /\ name = name_for names id alias)
          \/ namedict !! id = Some name)
    /\ (forall id, id ∈ rows.*1 \/ is_Some (namedict !! id) -> is_Some (namedict' !! id)).
Proof.
  revert namedict. induction rows as [|[id alias] rows IH]; intros namedict Hrows; simpl.
  - exists namedict. split_and!; [done|by auto|].
    intros id [Hid|Hid]; [by apply elem_of_nil in Hid|done].
  - assert (bool_decide (id ∈ names) || alias_in alias names = true) as ->.
    { destruct (Hrows id alias) as [Hid|Ha]; [left| |].
      - by rewrite bool_decide_eq_true_2.
      - apply Is_true_true in Ha. rewrite Ha. apply orb_true_r. }
    simpl.
    destruct (IH (<[id := name_for names id alias]> namedict)) as (nd & -> & Hfrom & Hdom).
    { intros id' alias' Hin. apply Hrows. by right. }
    exists nd. split_and!; [done| |].
    + intros id' name Hl. destruct (Hfrom id' name Hl) as [(alias' & Hin & ->)|Hl'].
      * left. exists alias'. split; [by right|done].
      * destruct (decide (id = id')) as [->|Hne].
        -- rewrite lookup_insert_eq in Hl'. left. exists alias. split; [left|congruence].
        -- rewrite lookup_insert_ne in Hl' by done. by right.
    + intros id' Hid'. apply Hdom. cbn in Hid'. rewrite elem_of_cons in Hid'.
      destruct (decide (id = id')) as [->|Hne].
      * right. rewrite lookup_insert_eq. by eexists.
      * rewrite lookup_insert_ne by done. naive_solver.
Qed.

Lemma select_id_alias_elem (conn : Connection) (names : list string)
    (id : string) (alias : option string) :
  (id, alias) ∈ select_id_alias conn names <->
  exists o, o ∈ graph_objects conn /\ obj_id o = id /\ obj_alias o = alias
            /\ (id ∈ names \/ alias_in alias names).
Proof.
  unfold select_id_alias. rewrite list_elem_of_fmap. split.
  - intros (o & [= -> ->] & Ho). apply list_elem_of_filter in Ho as [Hm Ho].
    exists o. split_and!; [done..|].
    apply orb_True in Hm as [Hm|Hm]; [left; by apply bool_decide_unpack in Hm|by right].
  - intros (o & Ho & <- & <- & Hm). exists o. split; [done|].
    apply list_elem_of_filter. split; [|done].
    apply orb_True. destruct Hm as [Hm|Hm]; [left; by apply bool_decide_pack|by right].
Qed.

(** [prepare_ids] gets past the query for every request whose names pass the
    checks. *)
Lemma fill_namedict_total (conn : Connection) (names : list string) :
  exists namedict, fill_namedict names (select_id_alias conn names) ∅ = Ok namedict.
Proof.
  destruct (fill_namedict_spec names (select_id_alias conn names) ∅) as (nd & Hnd & _).
  - intros id alias Hin. apply select_id_alias_elem in Hin. naive_solver.
  - by exists nd.
Qed.

End resolution.

(** ** The requests of the test suite *)

(** The bodies [graph_test.py] expects for ids that do not exist and for
    empty identifiers, and the two forms of an object request. *)
Example fixed_bodies :
  graph.body <$> graph.ObjectHandler_get Fixture.handler Fixture.no_query "9" = Ok "false"
  /\ graph.body <$> graph.ObjectHandler_get Fixture.handler (Fixture.ids "9") ""
     = Ok ("[" +:+ graph.newline +:+ graph.newline +:+ "]")
  /\ graph.body <$> graph.ObjectHandler_get Fixture.handler (Fixture.ids "9,8") ""
     = Ok ("[" +:+ graph.newline +:+ graph.newline +:+ "]")
  /\ graph.body <$> graph.ObjectHandler_get Fixture.handler (Fixture.ids "") ""
     = Ok (graph.unicode EmptyIdentifierError)
  /\ graph.body <$> graph.ObjectHandler_get Fixture.handler (Fixture.ids "alice,,2") ""
     = Ok (graph.unicode EmptyIdentifierError)
  /\ graph.body <$> graph.ObjectHandler_get Fixture.handler (Fixture.ids "alice,foo") ""
     = Ok (graph.unicode (AliasNotFoundError "foo"))
  /\ graph.body <$> graph.ObjectHandler_get Fixture.handler (Fixture.ids "foo,bar") ""
     = Ok (graph.unicode (AliasNotFoundError "foo,bar"))
  /\ graph.body <$> graph.ObjectHandler_get Fixture.handler (Fixture.ids "bob,1") ""
     = Ok (json_dumps None (JObj [("1", Fixture.alice); ("bob", Fixture.bob)])).
Proof. split_and!; vm_compute; reflexivity. Qed.

Example qmarks_three : graph.qmarks ["a"; "b"; "c"] = "?,?,?".
Proof. reflexivity. Qed.

(** ** The request without any identifier *)

Section no_identifier.
Import graph.
Context `{PySet} `{JsonCodec}.

(** C10: a request with an empty path identifier and no [ids] argument
    leaves [names] at [None]; iterating over it raises [TypeError], which is
    not a [GraphError]: [prepare_ids] raises it, [get] does not catch it
    and writes no body, whatever the subclass's [_get] is. *)
Theorem no_identifier_raises_TypeError
    (_get : NameDict -> result (gmap string json)) (self : Handler) (request : Request) :
  "ids" ∉ arguments request ->
  prepare_ids self request "" = Raise TypeError
  /\ get _get self request "" = Raise TypeError
  /\ (forall e : GraphError, TypeError <> GraphErr e).
Proof.
  intros Hids.
  assert (prepare_ids self request "" = Raise TypeError) as Hp.
  { unfold prepare_ids, requested_names. by rewrite bool_decide_eq_false_2. }
  split_and!; [done| |done].
  unfold get. by rewrite Hp.
Qed.

End no_identifier.

Lemma no_identifier_raises_TypeError_witness :
  ("ids" ∉ graph.arguments Fixture.no_query)
  /\ graph.prepare_ids Fixture.handler Fixture.no_query "" = Raise TypeError
  /\ graph.get (graph.ObjectHandler__get Fixture.handler) Fixture.handler Fixture.no_query ""
     = Raise TypeError
  /\ (forall e : GraphError, TypeError <> GraphErr e).
Proof.
  assert ("ids" ∉ graph.arguments Fixture.no_query) as Hids by apply not_elem_of_nil.
  split; [exact Hids|].
  exact (no_identifier_raises_TypeError
           (graph.ObjectHandler__get Fixture.handler) Fixture.handler Fixture.no_query Hids).
Defined.

(** ** The error boundary *)

Section error_boundary.
Import graph.
Context `{PySet} `{JsonCodec}.

Lemma get_caught (_get : NameDict -> result (gmap string json)) (self : Handler)
    (request : Request) (id : string) (e : GraphError) :
  prepare_ids self request id = Raise (GraphErr e)
  \/ (exists namedict, prepare_ids self request id = Ok namedict
                       /\ _get namedict = Raise (GraphErr e)) ->
  get _get self request id = Ok (written (unicode e)).
Proof.
  intros [Hp|(namedict & Hp & Hg)]; unfold get; rewrite Hp; simpl; [done|].
  by rewrite Hg.
Qed.

(** C3: a domain error raised by [prepare_ids] or by [_get] is caught by
    [get], which writes a response with status 200; the body is the JSON
    object with the error's message and type when the error has a type, and
    the bare message when it has none.  No response [get] writes has another
    status. *)
Theorem domain_error_status_200 (_get : NameDict -> result (gmap string json))
    (self : Handler) (request : Request) (id : string) (e : GraphError) :
  prepare_ids self request id = Raise (GraphErr e)
  \/ (exists namedict, prepare_ids self request id = Ok namedict
                       /\ _get namedict = Raise (GraphErr e)) ->
  exists response,
    get _get self request id = Ok response
    /\ status response = 200
    /\ body response =
         match type e with
         | Some t =>
             json_dumps None
               (JObj [("error", JObj [("message", JStr (message e)); ("type", JStr t)])])
         | None => message e
         end
    /\ (forall response', get _get self request id = Ok response' -> status response' = 200).
Proof.
  intros Hraise. apply get_caught in Hraise. exists (written (unicode e)).
  split_and!; [done..|]. intros response'. rewrite Hraise. by intros [= <-].
Qed.

(** Every response [get] writes has status 200. *)
Lemma get_status_200 (_get : NameDict -> result (gmap string json))
    (self : Handler) (request : Request) (id : string) (response : Response) :
  get _get self request id = Ok response -> status response = 200.
Proof.
  unfold get. destruct (_ ← prepare_ids self request id; _) as [text|[]]; simpl;
    by intros [= <-].
Qed.

End error_boundary.

Lemma domain_error_status_200_witness :
  exists response,
    graph.ObjectHandler_get Fixture.handler Fixture.no_query "9" = Ok response
    /\ graph.status response = 200
    /\ graph.body response = "false"
    /\ (forall response',
          graph.ObjectHandler_get Fixture.handler Fixture.no_query "9" = Ok response' ->
          graph.status response' = 200).
Proof.
  assert (graph.prepare_ids Fixture.handler Fixture.no_query "9"
          = Raise (GraphErr ObjectNotFoundError)) as Hp by (vm_compute; reflexivity).
  exact (domain_error_status_200 (graph.ObjectHandler__get Fixture.handler)
           Fixture.handler Fixture.no_query "9" ObjectNotFoundError (or_introl Hp)).
Defined.

(** ** A path identifier together with [ids] *)

Section id_specified.
Import graph.
Context `{PySet} `{JsonCodec}.

(** C7, as the code has it: a request with both a path identifier and an
    [ids] argument raises [IdSpecifiedError] with the path identifier, and
    its message is [Invalid token: "name".  An ID has already been
    specified.], with two spaces after the first full stop; [get] writes it
    inside the error object of type [OAuthException]. *)
Theorem id_already_specified (_get : NameDict -> result (gmap string json))
    (self : Handler) (request : Request) (path_id : string) :
  path_id <> "" ->
  "ids" ∈ arguments request ->
  prepare_ids self request path_id = Raise (GraphErr (IdSpecifiedError path_id))
  /\ message (IdSpecifiedError path_id)
     = "Invalid token: " +:+ quote +:+ path_id +:+ quote
         +:+ ".  An ID has already been specified."
  /\ get _get self request path_id
     = Ok (written (json_dumps None
                      (error_object (message (IdSpecifiedError path_id)) "OAuthException"))).
Proof.
  intros Hpath Hids.
  assert (prepare_ids self request path_id = Raise (GraphErr (IdSpecifiedError path_id)))
    as Hp.
  { unfold prepare_ids, requested_names. rewrite bool_decide_eq_true_2 by done.
    destruct path_id; [done|]. cbn [Py.truthy]. by rewrite ids_truthy. }
  split_and!; [done..|].
  by rewrite (get_caught _get self request path_id (IdSpecifiedError path_id)) by by left.
Qed.

End id_specified.

Lemma id_already_specified_witness :
  "foo" <> ""
  /\ ("ids" ∈ graph.arguments (Fixture.ids "bar"))
  /\ graph.prepare_ids Fixture.handler (Fixture.ids "bar") "foo"
     = Raise (GraphErr (IdSpecifiedError "foo"))
  /\ graph.message (IdSpecifiedError "foo")
     = "Invalid token: " +:+ graph.quote +:+ "foo" +:+ graph.quote
         +:+ ".  An ID has already been specified."
  /\ graph.ObjectHandler_get Fixture.handler (Fixture.ids "bar") "foo"
     = Ok (graph.written
             (json_dumps None
                (graph.error_object (graph.message (IdSpecifiedError "foo")) "OAuthException"))).
Proof.
  assert ("foo" <> "") as Hpath by discriminate.
  assert ("ids" ∈ graph.arguments (Fixture.ids "bar")) as Hids by (by left).
  split; [exact Hpath|]. split; [exact Hids|].
  exact (id_already_specified (graph.ObjectHandler__get Fixture.handler)
           Fixture.handler (Fixture.ids "bar") "foo" Hpath Hids).
Defined.

(** The message with a single space is not the one the code produces: at
    [GET /foo?ids=bar] the error raised carries another text. *)
Lemma id_already_specified_one_space_fails :
  graph.prepare_ids Fixture.handler (Fixture.ids "bar") "foo"
  = Raise (GraphErr (IdSpecifiedError "foo"))
  /\ graph.message (IdSpecifiedError "foo")
     <> "Invalid token: " +:+ graph.quote +:+ "foo" +:+ graph.quote
          +:+ ". An ID has already been specified.".
Proof. split; [vm_compute; reflexivity|discriminate]. Qed.

(** ** Names that are not found *)

Section not_found.
Import sqlite3 graph.
Context `{PySet}.

(** The names of the request, as a condition on a name. *)
Lemma requested_names_elem (request : Request) (path_id : string) (names : list string)
    (name : string) :
  requested_names request path_id = Ok names ->
  name ∈ names <->
  if Py.truthy path_id then name = path_id
  else name ∈ Py.split "," (request_get request "ids").
Proof.
  unfold requested_names. case_bool_decide as Hids.
  - destruct (Py.truthy path_id) eqn:Hpath.
    + by rewrite ids_truthy.
    + cbn. case_match; [|done]. intros [= <-]. apply set_iter_elem.
  - destruct (Py.truthy path_id) eqn:Hpath; cbn; [|done].
    case_match; [|done]. intros [= <-]. by rewrite set_iter_singleton, list_elem_of_singleton.
Qed.

(** C1, as the code has it: when the names of the request leave a not-found
    set that is not empty, [prepare_ids] raises [AliasNotFoundError] with the
    comma-joined names of that set that are not integers if there is one,
    else [ObjectNotFoundError] for a path identifier and
    [ObjectsNotFoundError] for [ids].  The joined names are the requested
    names that are no integer and are neither a key nor a value of the
    resolved dict, each once, in the order in which the set of not-found
    names is iterated. *)
Theorem not_found_error (self : Handler) (request : Request) (path_id : string)
    (names : list string) (namedict : gmap string string) :
  requested_names request path_id = Ok names ->
  fill_namedict names (select_id_alias (conn self) names) ∅ = Ok namedict ->
  not_found_names names namedict <> [] ->
  let aliases := filter (fun name => not_int name) (not_found_names names namedict) in
  prepare_ids self request path_id
  = Raise (GraphErr (if bool_decide (aliases <> [])
                     then AliasNotFoundError (Py.join "," aliases)
                     else if Py.truthy path_id then ObjectNotFoundError
                          else ObjectsNotFoundError))
  /\ NoDup aliases
  /\ (forall name, name ∈ aliases <->
        name ∈ names /\ not_int name
        /\ (name ∉ Py.values namedict) /\ (name ∉ Py.keys namedict)).
Proof.
  intros Hnames Hfill Hnf aliases. split_and!.
  - unfold prepare_ids. rewrite Hnames. cbn. rewrite Hfill. cbn.
    subst aliases. destruct (not_found_names names namedict) as [|n nf]; [done|].
    destruct (filter _ (n :: nf)) as [|a l].
    + rewrite bool_decide_eq_false_2 by (intros Hne; by apply Hne).
      by destruct (Py.truthy path_id).
    + by rewrite bool_decide_eq_true_2.
  - apply NoDup_filter, set_iter_NoDup.
  - intros name. unfold aliases, not_found_names.
    rewrite list_elem_of_filter, set_iter_elem, list_elem_of_filter, not_elem_of_app.
    tauto.
Qed.

End not_found.

Lemma not_found_error_witness :
  let names := ["foo"; "alice"] in
  let namedict : gmap string string := {[ "1" := "alice" ]} in
  let aliases :=
    filter (fun name => graph.not_int name) (graph.not_found_names names namedict) in
  graph.prepare_ids Fixture.handler (Fixture.ids "alice,foo") ""
  = Raise (GraphErr (if bool_decide (aliases <> [])
                     then AliasNotFoundError (Py.join "," aliases)
                     else if Py.truthy "" then ObjectNotFoundError
                          else ObjectsNotFoundError))
  /\ NoDup aliases
  /\ (forall name, name ∈ aliases <->
        name ∈ names /\ graph.not_int name
        /\ (name ∉ Py.values namedict) /\ (name ∉ Py.keys namedict)).
Proof.
  refine (not_found_error Fixture.handler (Fixture.ids "alice,foo") ""
            ["foo"; "alice"] {[ "1" := "alice" ]} _ _ _).
  - vm_compute. reflexivity.
  - vm_compute. reflexivity.
  - vm_compute. discriminate.
Defined.

(** [GET /?ids=bar,foo] for two aliases that do not exist: the error names
    them as [foo,bar], the order of CPython's set, not as [bar,foo], the
    order of the request. *)
Lemma not_found_error_request_order_fails :
  graph.prepare_ids Fixture.handler (Fixture.ids "bar,foo") ""
  = Raise (GraphErr (AliasNotFoundError "foo,bar"))
  /\ Py.join "," (filter (fun name => graph.not_int name) (Py.split "," "bar,foo"))
     = "bar,foo"
  /\ graph.prepare_ids Fixture.handler (Fixture.ids "bar,foo") ""
     <> Raise (GraphErr (AliasNotFoundError "bar,foo")).
Proof. split_and!; [vm_compute; reflexivity..|vm_compute; discriminate]. Qed.

(** ** The test users *)

Section test_users.
Import sqlite3 app.
Context `{JsonCodec}.

Lemma select_distinct_tokens_NoDup (conn : Connection) :
  NoDup (select_distinct_tokens conn).
Proof.
  unfold select_distinct_tokens. rewrite reverse_Permutation. apply NoDup_remove_dups.
Qed.

Lemma select_distinct_tokens_elem (conn : Connection) (u t : value) :
  (u, t) ∈ select_distinct_tokens conn <->
  exists row, row ∈ oauth_access_tokens conn /\ user_id row = u /\ token row = t.
Proof.
  unfold select_distinct_tokens.
  rewrite elem_of_reverse, elem_of_remove_dups, elem_of_reverse, list_elem_of_fmap.
  naive_solver.
Qed.

(** C8: the body of the test-users endpoint does not depend on the
    application id; it is [json.dumps] with [indent=2] of
    [{"data": [{"id": user_id, "access_token": token}, ...]}], with one item
    for each distinct pair of the token table, written as
    [text/plain; charset=utf-8]. *)
Theorem test_users_ignore_app_id (conn : Connection) (app_id app_id' : string) :
  let rows := select_distinct_tokens conn in
  TestUsersHandler_get conn app_id = TestUsersHandler_get conn app_id'
  /\ TestUsersHandler_get conn app_id
     = graph.written
         (json_dumps (Some 2%nat)
            (JObj [("data",
                    JList ((fun row => JObj [("id", to_python row.1);
                                             ("access_token", to_python row.2)]) <$> rows))]))
  /\ NoDup rows
  /\ (forall u t, (u, t) ∈ rows <->
        exists row, row ∈ oauth_access_tokens conn /\ user_id row = u /\ token row = t).
Proof.
  split_and!; [done..| |].
  - apply select_distinct_tokens_NoDup.
  - apply select_distinct_tokens_elem.
Qed.

End test_users.

(** The fixture's three token rows hold two distinct pairs. *)
Example test_users_fixture :
  graph.body (app.TestUsersHandler_get Fixture.db "123")
  = json_dumps (Some 2%nat)
      (JObj [("data", JList [JObj [("id", JNum 7); ("access_token", JStr "tok7")];
                             JObj [("id", JNum 8); ("access_token", JStr "tok8")]])]).
Proof. reflexivity. Qed.

(** ** The SQL of a graph dataset *)

Section to_sql.
Import schemautil.
Context `{JsonCodec}.

Lemma objects_to_sql_spec (ds : list Data) (output : list string) :
  Forall (fun d => exists items, d_data d = JObj items /\ is_Some (dict_get "id" items)) ds ->
  exists statements,
    objects_to_sql ds output = Ok (output ++ statements)
    /\ Forall2 (fun d statement =>
                  exists items id,
                    d_data d = JObj items /\ dict_get "id" items = Some id
                    /\ statement
                       = make_insert "graph_objects"
                           [id; default JNull (dict_get ALIAS_FIELD items);
                            JStr (json_dumps None (d_data d))])
               ds statements.
Proof.
  revert output. induction ds as [|d ds IH]; intros output Hds; simpl.
  - exists []. by rewrite app_nil_r.
  - apply Forall_cons in Hds as [(items & Hd & id & Hid) Hds].
    unfold object_values, getitem, get. rewrite Hd, Hid. cbn.
    destruct (IH (output ++ [make_insert "graph_objects"
                               [id; default JNull (dict_get ALIAS_FIELD items);
                                JStr (json_dumps None (JObj items))]]) Hds)
      as (statements & -> & Hall).
    eexists (_ :: statements). rewrite <- app_assoc. split; [done|].
    constructor; [|done]. exists items, id. by rewrite Hd.
Qed.

Lemma connections_to_sql_spec (conns : list Connection) (output : list string) :
  Forall (fun conn => exists objects, getitem (c_data conn) "data" ≫= iterate = Ok objects)
         conns ->
  exists statements,
    connections_to_sql conns output = Ok (output ++ concat statements)
    /\ Forall2 (fun conn inserts =>
                  exists objects,
                    getitem (c_data conn) "data" ≫= iterate = Ok objects
                    /\ inserts
                       = (fun object =>
                            make_insert "graph_connections"
                              [JStr (c_id conn); JStr (c_name conn);
                               JStr (json_dumps None object)]) <$> objects)
               conns statements.
Proof.
  revert output. induction conns as [|conn conns IH]; intros output Hconns; simpl.
  - exists []. by rewrite app_nil_r.
  - apply Forall_cons in Hconns as [(objects & Hobjects) Hconns].
    destruct (getitem (c_data conn) "data") as [seq|] eqn:Hseq; [|done].
    cbn in Hobjects |- *. rewrite Hobjects. cbn.
    destruct (IH (output ++ ((fun object => make_insert "graph_connections"
                                (connection_values conn object)) <$> objects)) Hconns)
      as (statements & -> & Hall).
    eexists (_ :: statements). cbn. rewrite <- app_assoc. split; [done|].
    constructor; [|done]. exists objects. by rewrite Hseq.
Qed.

(** C9, as the code has it: for a dataset whose objects have an [id] and
    whose connections have a list under [data], [to_sql] gives
    [BEGIN TRANSACTION;], then one [INSERT INTO graph_objects] for each
    object, with three values: the id, the alias under [username] ([None],
    written [NULL], when it is absent) and the object as JSON text; then, for
    each connection, one [INSERT INTO graph_connections] for each element of
    its list, with the owning id, the connection name and the element as JSON
    text; then [COMMIT;]; all joined by new lines. *)
Theorem to_sql_statements (self : GraphDataset) :
  Forall (fun d => exists items, d_data d = JObj items /\ is_Some (dict_get "id" items))
         (Py.values (data self)) ->
  Forall (fun conn => exists objects, getitem (c_data conn) "data" ≫= iterate = Ok objects)
         (Py.values (ds_connections self)) ->
  exists (objects : list string) (connections : list (list string)),
    to_sql self
    = Ok (Py.join newline
            (["BEGIN TRANSACTION;"] ++ objects ++ concat connections ++ ["COMMIT;"]))
    /\ Forall2 (fun d statement =>
                  exists items id,
                    d_data d = JObj items /\ dict_get "id" items = Some id
                    /\ statement
                       = make_insert "graph_objects"
                           [id; default JNull (dict_get ALIAS_FIELD items);
                            JStr (json_dumps None (d_data d))])
               (Py.values (data self)) objects
    /\ Forall2 (fun conn inserts =>
                  exists elements,
                    getitem (c_data conn) "data" ≫= iterate = Ok elements
                    /\ inserts
                       = (fun element =>
                            make_insert "graph_connections"
                              [JStr (c_id conn); JStr (c_name conn);
                               JStr (json_dumps None element)]) <$> elements)
               (Py.values (ds_connections self)) connections.
Proof.
  intros Hdata Hconns. unfold to_sql.
  destruct (objects_to_sql_spec _ ["BEGIN TRANSACTION;"] Hdata) as (objects & -> & Hobjects).
  cbn.
  destruct (connections_to_sql_spec _ ("BEGIN TRANSACTION;" :: objects) Hconns)
    as (connections & -> & Hconnections).
  cbn. exists objects, connections. split_and!; [|done..].
  by rewrite <- !app_assoc.
Qed.

End to_sql.

Lemma to_sql_statements_witness :
  exists (objects : list string) (connections : list (list string)),
    schemautil.to_sql Fixture.dataset
    = Ok (Py.join schemautil.newline
            (["BEGIN TRANSACTION;"] ++ objects ++ concat connections ++ ["COMMIT;"]))
    /\ Forall2 (fun d statement =>
                  exists items id,
                    schemautil.d_data d = JObj items /\ dict_get "id" items = Some id
                    /\ statement
                       = schemautil.make_insert "graph_objects"
                           [id; default JNull (dict_get schemautil.ALIAS_FIELD items);
                            JStr (json_dumps None (schemautil.d_data d))])
               (Py.values (schemautil.data Fixture.dataset)) objects
    /\ Forall2 (fun conn inserts =>
                  exists elements,
                    schemautil.getitem (schemautil.c_data conn) "data" ≫= schemautil.iterate
                    = Ok elements
                    /\ inserts
                       = (fun element =>
                            schemautil.make_insert "graph_connections"
                              [JStr (schemautil.c_id conn); JStr (schemautil.c_name conn);
                               JStr (json_dumps None element)]) <$> elements)
               (Py.values (schemautil.ds_connections Fixture.dataset)) connections.
Proof.
  apply to_sql_statements.
  - assert (Py.values (schemautil.data Fixture.dataset)
            = [ {| schemautil.d_table := "user"; schemautil.d_query := "1";
                   schemautil.d_data := Fixture.alice |};
                {| schemautil.d_table := "user"; schemautil.d_query := "carol";
                   schemautil.d_data := Fixture.carol |} ]) as ->
      by (vm_compute; reflexivity).
    repeat constructor; eexists; (split; [reflexivity|]); eexists; reflexivity.
  - assert (Py.values (schemautil.ds_connections Fixture.dataset)
            = [ {| schemautil.c_table := "user"; schemautil.c_id := "1";
                   schemautil.c_name := "albums";
                   schemautil.c_data :=
                     JObj [("data", JList [JObj [("id", JStr "3")];
                                           JObj [("id", JStr "4")]])] |} ]) as ->
      by (vm_compute; reflexivity).
    repeat constructor. eexists. reflexivity.
Defined.

(** The [INSERT] of an object has three values, not four: for the object
    [{"id": "1", "foo": "bar"}] they are the id, [None] and the JSON text,
    and the statement lists these three. *)
Lemma to_sql_object_four_values_fails :
  let d := {| schemautil.d_table := "user"; schemautil.d_query := "1";
              schemautil.d_data := Fixture.alice |} in
  schemautil.object_values d
  = Ok [JStr "1"; JNull; JStr (json_dumps None Fixture.alice)]
  /\ (forall values, schemautil.object_values d = Ok values -> List.length values <> 4%nat)
  /\ schemautil.to_sql
       {| schemautil.data := {[ "1" := d ]}; schemautil.ds_connections := ∅ |}
     = Ok (Py.join schemautil.newline
             ["BEGIN TRANSACTION;";
              Py.join schemautil.newline
                ["INSERT INTO graph_objects VALUES (";
                 "  '1',";
                 "  NULL,";
                 "  '" +:+ json_dumps None Fixture.alice +:+ "'";
                 ");"];
              "COMMIT;"]).
Proof.
  split_and!; [reflexivity| |vm_compute; reflexivity].
  intros values [= <-]. discriminate.
Qed.

(** ** Connections *)

Lemma keys_elem {A : Type} (d : gmap string A) (key : string) :
  key ∈ Py.keys d <-> is_Some (d !! key).
Proof.
  unfold Py.keys. rewrite list_elem_of_fmap. split.
  - intros ([k v] & -> & Hin). apply elem_of_map_to_list in Hin. by eexists.
  - intros [v Hv]. exists (key, v). split; [done|]. by apply elem_of_map_to_list.
Qed.

Lemma values_elem {A : Type} (d : gmap string A) (v : A) :
  v ∈ Py.values d <-> exists key, d !! key = Some v.
Proof.
  unfold Py.values. rewrite list_elem_of_fmap. split.
  - intros ([k v'] & -> & Hin). apply elem_of_map_to_list in Hin. by eexists.
  - intros [key Hv]. exists (key, v). split; [done|]. by apply elem_of_map_to_list.
Qed.

Section connections.
Import sqlite3 graph.
Context `{PySet} `{JsonCodec}.

Lemma select_connection_elem (conn : Connection) (ids : list string)
    (connection id data : string) :
  (id, data) ∈ select_connection conn ids connection <->
  exists r, r ∈ graph_connections conn /\ row_id r = id /\ row_data r = data
            /\ id ∈ ids /\ row_connection r = connection.
Proof.
  unfold select_connection. rewrite list_elem_of_fmap. split.
  - intros (r & [= -> ->] & Hr). apply list_elem_of_filter in Hr as [[??] ?]. by exists r.
  - intros (r & Hr & <- & <- & Hid & Hc). exists r. split; [done|].
    by apply list_elem_of_filter.
Qed.

Lemma empty_lists_lookup (names : list string) (key : string) :
  empty_lists names !! key = if bool_decide (key ∈ names) then Some [] else None.
Proof.
  unfold empty_lists. case_bool_decide as Hkey.
  - apply elem_of_list_to_map_1'.
    + intros l' Hin. apply list_elem_of_fmap in Hin as (name & [= _ ->] & _). done.
    + apply list_elem_of_fmap. by exists key.
  - apply not_elem_of_list_to_map. rewrite <- list_fmap_compose.
    intros Hin. apply list_elem_of_fmap in Hin as (name & -> & Hin). done.
Qed.

Lemma append_rows_spec (namedict : gmap string string) (rows : list (string * string))
    (resp : gmap string (list json)) :
  Forall (fun row => exists name, namedict !! row.1 = Some name
                                  /\ is_Some (resp !! name)
                                  /\ is_Some (json_loads row.2)) rows ->
  exists resp',
    append_rows namedict rows resp = Ok resp'
    /\ forall key, resp' !! key = (fun l => l ++ data_for namedict key rows) <$> resp !! key.
Proof.
  revert resp. induction rows as [|[id data] rows IH]; intros resp Hrows; simpl.
  - exists resp. split; [done|]. intros key. destruct (resp !! key); cbn; [|done].
    by rewrite app_nil_r.
  - apply Forall_cons in Hrows as [(name & Hname & [entry Hentry] & [value Hvalue]) Hrows].
    cbn in Hname, Hvalue. unfold getitem, loads. rewrite Hname. cbn.
    rewrite Hentry. cbn. rewrite Hvalue. cbn.
    destruct (IH (<[name := entry ++ [value]]> resp)) as (resp' & -> & Hresp').
    { eapply Forall_impl; [exact Hrows|]. intros row (name' & ? & ? & ?).
      exists name'. split_and!; [done| |done]. rewrite lookup_insert_is_Some.
      destruct (decide (name = name')); [by left|by right]. }
    exists resp'. split; [done|]. intros key. rewrite Hresp'.
    destruct (decide (name = key)) as [<-|Hne].
    + rewrite lookup_insert_eq, Hentry. cbn.
      rewrite bool_decide_eq_true_2 by done. by rewrite <- app_assoc.
    + rewrite lookup_insert_ne by done. cbn.
      rewrite bool_decide_eq_false_2 by congruence. done.
Qed.






End connections.


(** The fixture's albums, and a connection without rows. *)
Example connection_get_albums :
  graph.body <$> graph.ConnectionHandler_get Fixture.handler (Fixture.ids "alice,bob") "" "albums"
  = Ok (json_dumps None
          (JObj [("alice", JObj [("data", JList [JObj [("id", JStr "3")];
                                                JObj [("id", JStr "4")]])]);
                 ("bob", JObj [("data", JList [JObj [("id", JStr "5")]])])]))
  /\ graph.body <$> graph.ConnectionHandler_get Fixture.handler (Fixture.ids "alice") "" "family"
     = Ok (json_dumps None (JObj [("alice", JObj [("data", JList [])])]))
  /\ graph.body <$> graph.ConnectionHandler_get Fixture.handler Fixture.no_query "alice" "foo"
     = Ok (graph.unicode (UnknownPathError "foo")).
Proof. split_and!; vm_compute; reflexivity. Qed.

(** ** The picture redirect *)

Section picture.
Import sqlite3 graph.
Context `{PySet} `{JsonCodec}.

Lemma select_connection_first (conn : Connection) (ids : list string) (connection : string)
    (before after : list GraphConnectionRow) (r : GraphConnectionRow) :
  graph_connections conn = before ++ r :: after ->
  Forall (fun r' => ~ (row_id r' ∈ ids /\ row_connection r' = connection)) before ->
  row_id r ∈ ids ->
  row_connection r = connection ->
  exists rest, select_connection conn ids connection = (row_id r, row_data r) :: rest.
Proof.
  intros Hsplit Hbefore Hid Hc. unfold select_connection. rewrite Hsplit. clear Hsplit.
  induction Hbefore as [|r' before Hr' _ IH].
  - rewrite app_nil_l, filter_cons_True by done. by eexists.
  - by rewrite <- app_comm_cons, filter_cons_False by done.
Qed.

(** C4: for a resolved request on the connection [picture], listed in
    [all_connections], whose first matching row in the order of storage holds
    the JSON string [url], the handler raises webapp2's redirect with status
    302 to [url] and writes no body: the row is the first one of the table
    with one of the resolved ids and the connection [picture], whichever
    requested id it belongs to. *)
Theorem picture_redirects_to_first_row (self : Handler) (request : Request) (id : string)
    (namedict : NameDict) (before after : list GraphConnectionRow)
    (r : GraphConnectionRow) (url : string) :
  prepare_ids self request id = Ok namedict ->
  REDIRECT_CONNECTION ∈ all_connections self ->
  graph_connections (conn self) = before ++ r :: after ->
  Forall (fun r' => ~ (row_id r' ∈ Py.keys (names_by_id namedict)
                       /\ row_connection r' = REDIRECT_CONNECTION)) before ->
  row_id r ∈ Py.keys (names_by_id namedict) ->
  row_connection r = REDIRECT_CONNECTION ->
  json_loads (row_data r) = Some (JStr url) ->
  ConnectionHandler_get self request id REDIRECT_CONNECTION
  = Raise (HTTPException 302 url).
Proof.
  intros Hp Hlegal Hsplit Hbefore Hid Hc Hurl.
  destruct (select_connection_first _ _ _ _ _ _ Hsplit Hbefore Hid Hc) as (rest & Hrows).
  unfold ConnectionHandler_get, get. rewrite Hp. cbn.
  unfold ConnectionHandler__get. rewrite bool_decide_eq_true_2 by done. cbn.
  rewrite Hrows. unfold redirect_first. rewrite bool_decide_eq_true_2 by done.
  unfold loads. by rewrite Hurl.
Qed.

End picture.

(** [GET //picture?ids=bob,alice]: alice's row comes first in the table, and
    the redirect goes to her picture though bob is requested first. *)
Lemma picture_redirects_to_first_row_witness :
  graph.ConnectionHandler_get Fixture.handler (Fixture.ids "bob,alice") ""
    graph.REDIRECT_CONNECTION
  = Raise (HTTPException 302 "http://alice/picture").
Proof.
  refine (picture_redirects_to_first_row Fixture.handler (Fixture.ids "bob,alice") ""
            {| graph.names_by_id := {[ "1" := "alice"; "2" := "bob" ]};
               graph.single := false |}
            (take 3 (sqlite3.graph_connections Fixture.db))
            (drop 4 (sqlite3.graph_connections Fixture.db))
            {| sqlite3.row_id := "1"; sqlite3.row_connection := "picture";
               sqlite3.row_data := Fixture.quoted "http://alice/picture" |}
            "http://alice/picture" _ _ _ _ _ _ _).
  - vm_compute. reflexivity.
  - decide_by_evaluation.
  - reflexivity.
  - repeat constructor; intros [_ Hc]; discriminate Hc.
  - decide_by_evaluation.
  - reflexivity.
  - vm_compute. reflexivity.
Defined.

(** ** Objects and the key of the response *)

Lemma NoDup_fmap_eq {A B : Type} (f : A -> B) (l : list A) (x y : A) :
  NoDup (f <$> l) -> x ∈ l -> y ∈ l -> f x = f y -> x = y.
Proof.
  induction l as [|z l IH]; [by intros _ ?%elem_of_nil|].
  rewrite fmap_cons, NoDup_cons, !elem_of_cons.
  intros [Hz Hl] [->|Hx] [->|Hy] Hf; [done| | |by apply IH].
  - destruct Hz. rewrite Hf. by apply list_elem_of_fmap_2.
  - destruct Hz. rewrite <- Hf. by apply list_elem_of_fmap_2.
Qed.

Lemma NoDup_omap_eq {A B : Type} (f : A -> option B) (l : list A) (x y : A) (b : B) :
  NoDup (omap f l) -> x ∈ l -> y ∈ l -> f x = Some b -> f y = Some b -> x = y.
Proof.
  induction l as [|z l IH]; [by intros _ ?%elem_of_nil|].
  cbn. rewrite !elem_of_cons. intros Hnd Hx Hy Hfx Hfy.
  assert (forall w, w ∈ l -> f w = Some b -> b ∈ omap f l) as Hin.
  { intros w Hw Hfw. apply list_elem_of_omap. by exists w. }
  destruct (f z) as [c|] eqn:Hfz.
  - apply NoDup_cons in Hnd as [Hc Hnd].
    destruct Hx as [->|Hx], Hy as [->|Hy]; [done| | |by apply IH].
    + destruct Hc. simplify_eq. by eapply Hin.
    + destruct Hc. simplify_eq. by eapply Hin.
  - destruct Hx as [->|Hx]; [congruence|]. destruct Hy as [->|Hy]; [congruence|].
    by apply IH.
Qed.

Section objects.
Import sqlite3 graph.
Context `{PySet} `{JsonCodec}.

Lemma select_id_data_elem (conn : Connection) (ids : list string) (id data : string) :
  (id, data) ∈ select_id_data conn ids <->
  exists o, o ∈ graph_objects conn /\ obj_id o = id /\ obj_data o = data /\ id ∈ ids.
Proof.
  unfold select_id_data. rewrite list_elem_of_fmap. split.
  - intros (o & [= -> ->] & Ho). apply list_elem_of_filter in Ho as [??]. by exists o.
  - intros (o & Ho & <- & <- & Hid). exists o. split; [done|]. by apply list_elem_of_filter.
Qed.

(** With unique ids, the dict of [prepare_ids] maps the id of each object
    that has a requested id or alias to its alias when that is requested,
    else to its id. *)
Lemma fill_namedict_lookup (conn : Connection) (names : list string)
    (namedict : gmap string string) (id name : string) :
  NoDup (obj_id <$> graph_objects conn) ->
  fill_namedict names (select_id_alias conn names) ∅ = Ok namedict ->
  namedict !! id = Some name <->
  exists o, o ∈ graph_objects conn /\ obj_id o = id
            /\ (id ∈ names \/ alias_in (obj_alias o) names)
            /\ name = name_for names id (obj_alias o).
Proof.
  intros Hids Hfill.
  destruct (fill_namedict_spec names (select_id_alias conn names) ∅)
    as (nd & Hnd & Hfrom & Hdom).
  { intros i alias Hin. apply select_id_alias_elem in Hin. naive_solver. }
  rewrite Hfill in Hnd. injection Hnd as <-.
  assert (forall name', namedict !! id = Some name' ->
            exists o, o ∈ graph_objects conn /\ obj_id o = id
                      /\ (id ∈ names \/ alias_in (obj_alias o) names)
                      /\ name' = name_for names id (obj_alias o)) as Hto.
  { intros name' Hl. destruct (Hfrom id name' Hl) as [(alias & Hin & ->)|Hl'].
    - apply select_id_alias_elem in Hin as (o & ? & ? & <- & ?). by exists o.
    - by rewrite lookup_empty in Hl'. }
  split; [apply Hto|].
  intros (o & Ho & Hid & Hmatch & ->).
  destruct (Hdom id) as [name' Hname'].
  { left. apply list_elem_of_fmap. exists (id, obj_alias o). split; [done|].
    apply select_id_alias_elem. by exists o. }
  rewrite Hname'. f_equal.
  destruct (Hto name' Hname') as (o' & Ho' & Hid' & _ & ->).
  by rewrite (NoDup_fmap_eq obj_id _ o o' Hids Ho Ho') by congruence.
Qed.

(** The dict of [ObjectHandler._get]: it is built when every row has a name
    and holds JSON; each of its values is decoded from a row with that name,
    and each name of a row is a key. *)
Lemma object_dict_spec (namedict : gmap string string) (rows : list (string * string))
    (resp : gmap string json) :
  Forall (fun row => is_Some (namedict !! row.1) /\ is_Some (json_loads row.2)) rows ->
  exists resp',
    object_dict namedict rows resp = Ok resp'
    /\ (forall key v, resp' !! key = Some v ->
          (exists id data, (id, data) ∈ rows /\ namedict !! id = Some key
                           /\ json_loads data = Some v)
          \/ resp !! key = Some v)
    /\ (forall key, (exists id data, (id, data) ∈ rows /\ namedict !! id = Some key)
                    \/ is_Some (resp !! key) -> is_Some (resp' !! key)).
Proof.
  revert resp. induction rows as [|[id data] rows IH]; intros resp Hrows; simpl.
  - exists resp. split_and!; [done|by auto|].
    intros key [(id & data & Hin & _)|Hkey]; [by apply elem_of_nil in Hin|done].
  - apply Forall_cons in Hrows as [[[name Hname] [value Hvalue]] Hrows].
    cbn in Hname, Hvalue. unfold getitem, loads. rewrite Hname. cbn. rewrite Hvalue. cbn.
    destruct (IH (<[name := value]> resp) Hrows) as (resp' & -> & Hfrom & Hdom).
    exists resp'. split_and!; [done| |].
    + intros key v Hl. destruct (Hfrom key v Hl) as [(id' & data' & Hin & ? & ?)|Hl'].
      * left. exists id', data'. split; [by right|done].
      * destruct (decide (name = key)) as [<-|Hne].
        -- rewrite lookup_insert_eq in Hl'. injection Hl' as <-.
           left. exists id, data. split; [left|done].
        -- rewrite lookup_insert_ne in Hl' by done. by right.
    + intros key Hkey. apply Hdom. rewrite lookup_insert_is_Some'.
      destruct Hkey as [(id' & data' & Hin & Hl)|Hkey]; [|by auto].
      apply elem_of_cons in Hin as [[= -> ->]|Hin].
      * right. left. congruence.
      * left. by exists id', data'.
Qed.

End objects.

Section alias_key.
Import sqlite3 graph.
Context `{PySet} `{JsonCodec}.

Lemma alias_is_no_id (conn : Connection) (o o' : GraphObject) (name : string) :
  well_formed conn ->
  o ∈ graph_objects conn -> o' ∈ graph_objects conn ->
  obj_alias o = Some name -> obj_id o' <> name.
Proof.
  intros (_ & _ & Hdisjoint) Ho Ho' Halias Hid.
  rewrite Forall_forall in Hdisjoint. apply (Hdisjoint name).
  - apply list_elem_of_omap. by exists o.
  - apply list_elem_of_fmap. by exists o'.
Qed.

(** When every requested name is the id or the alias of an object, no name is
    left as not found. *)
Lemma all_found (conn : Connection) (names : list string) (namedict : gmap string string) :
  NoDup (obj_id <$> graph_objects conn) ->
  fill_namedict names (select_id_alias conn names) ∅ = Ok namedict ->
  (forall name, name ∈ names ->
     exists o, o ∈ graph_objects conn /\ (obj_id o = name \/ obj_alias o = Some name)) ->
  not_found_names names namedict = [].
Proof.
  intros Hids Hfill Hfound. unfold not_found_names.
  assert (filter (fun name => name ∉ Py.values namedict ++ Py.keys namedict) names = [])
    as ->; [|apply set_iter_nil].
  apply elem_of_nil_inv. intros name. rewrite list_elem_of_filter. intros [Hout Hin].
  apply Hout. rewrite elem_of_app, values_elem, keys_elem.
  destruct (Hfound name Hin) as (o & Ho & [Hid|Halias]).
  - right. eexists. apply (fill_namedict_lookup conn names namedict) ; [done..|].
    exists o. split_and!; [done..|by left|done].
  - left. exists (obj_id o). apply (fill_namedict_lookup conn names namedict); [done..|].
    exists o. unfold name_for, alias_in. rewrite Halias, !bool_decide_eq_true_2 by done.
    split_and!; [done..|by right|done].
Qed.

(** C2: take a request by [ids] whose names pass the checks and are all
    found, in a database with unique ids and aliases that holds JSON.  For
    every object whose alias is among the requested names, whether its id is
    requested as well or not, [prepare_ids] maps the object's id to the alias,
    and the dict of the response has the object under its alias and has no
    key equal to the object's id: one entry for the object, keyed by the
    alias. *)
Theorem alias_keys_the_response (self : Handler) (request : Request) (names : list string)
    (o : GraphObject) (alias : string) (v : json) :
  well_formed (conn self) ->
  requested_names request "" = Ok names ->
  (forall name, name ∈ names ->
     exists o', o' ∈ graph_objects (conn self)
                /\ (obj_id o' = name \/ obj_alias o' = Some name)) ->
  Forall (fun o' => is_Some (json_loads (obj_data o'))) (graph_objects (conn self)) ->
  o ∈ graph_objects (conn self) ->
  obj_alias o = Some alias ->
  alias ∈ names ->
  json_loads (obj_data o) = Some v ->
  exists namedict resp,
    prepare_ids self request "" = Ok namedict
    /\ single namedict = false
    /\ names_by_id namedict !! obj_id o = Some alias
    /\ ObjectHandler__get self namedict = Ok resp
    /\ resp !! alias = Some v
    /\ resp !! obj_id o = None
    /\ ObjectHandler_get self request ""
       = Ok (written (json_dumps None (JObj (map_to_list resp)))).
Proof.
  intros Hwf Hnames Hfound Hjson Ho Halias Hrequested Hv.
  pose proof Hwf as (Hids & Haliases & _).
  destruct (fill_namedict_total (conn self) names) as [nd Hfill].
  pose proof (fun id name => fill_namedict_lookup (conn self) names nd id name Hids Hfill)
    as Hnd.
  assert (prepare_ids self request "" = Ok {| names_by_id := nd; single := false |}) as Hp.
  { unfold prepare_ids. rewrite Hnames. cbn. rewrite Hfill. cbn.
    by rewrite (all_found (conn self) names nd). }
  assert (nd !! obj_id o = Some alias) as Hkey.
  { apply Hnd. exists o. unfold name_for, alias_in.
    rewrite Halias, !bool_decide_eq_true_2 by done. split_and!; [done..|by right|done]. }
  destruct (object_dict_spec nd (select_id_data (conn self) (Py.keys nd)) ∅)
    as (resp & Hresp & Hfrom & Hdom).
  { apply Forall_forall. intros [id data] Hrow.
    apply select_id_data_elem in Hrow as (o' & Ho' & _ & <- & Hid).
    split; [by apply keys_elem|]. rewrite Forall_forall in Hjson. by apply Hjson. }
  assert (forall key v',
            resp !! key = Some v' ->
            exists o', o' ∈ graph_objects (conn self)
                       /\ key = name_for names (obj_id o') (obj_alias o')
                       /\ json_loads (obj_data o') = Some v') as Hrow.
  { intros key v' Hl. destruct (Hfrom key v' Hl) as [(id & data & Hin & Hname & Hload)|Hl'].
    - apply select_id_data_elem in Hin as (o' & Ho' & <- & <- & _).
      apply Hnd in Hname as (o'' & Ho'' & Hid & _ & ->).
      rewrite (NoDup_fmap_eq obj_id _ o'' o' Hids Ho'' Ho' Hid). by exists o'.
    - by rewrite lookup_empty in Hl'. }
  exists {| names_by_id := nd; single := false |}, resp.
  split_and!; [done..| | | ].
  - destruct (Hdom alias) as [v' Hv'].
    { left. exists (obj_id o), (obj_data o). split; [|done].
      apply select_id_data_elem. exists o. split_and!; [done..|].
      apply keys_elem. by eexists. }
    rewrite Hv'. f_equal.
    destruct (Hrow alias v' Hv') as (o' & Ho' & Hname & Hload).
    unfold name_for in Hname. destruct (obj_alias o') as [a'|] eqn:Ha'.
    + case_bool_decide; subst.
      * rewrite (NoDup_omap_eq obj_alias _ o o' a' Haliases Ho Ho' Halias Ha') in Hv.
        congruence.
      * by destruct (alias_is_no_id (conn self) o o' (obj_id o') Hwf Ho Ho' Halias).
    + subst. by destruct (alias_is_no_id (conn self) o o' (obj_id o') Hwf Ho Ho' Halias).
  - destruct (resp !! obj_id o) as [v'|] eqn:Hv'; [exfalso|done].
    destruct (Hrow _ v' Hv') as (o' & Ho' & Hname & _).
    unfold name_for in Hname. destruct (obj_alias o') as [a'|] eqn:Ha'.
    + case_bool_decide.
      * by destruct (alias_is_no_id (conn self) o' o a' Hwf Ho' Ho Ha').
      * rewrite (NoDup_fmap_eq obj_id _ o o' Hids Ho Ho' Hname) in Halias.
        congruence.
    + rewrite (NoDup_fmap_eq obj_id _ o o' Hids Ho Ho' Hname) in Halias. congruence.
  - unfold ObjectHandler_get, get. rewrite Hp. cbn.
    unfold ObjectHandler__get. cbn. by rewrite Hresp.
Qed.

End alias_key.

(** [GET /?ids=alice,1]: one entry, under [alice]. *)
Lemma alias_keys_the_response_witness :
  exists namedict resp,
    graph.prepare_ids Fixture.handler (Fixture.ids "alice,1") "" = Ok namedict
    /\ graph.single namedict = false
    /\ graph.names_by_id namedict !! sqlite3.obj_id Fixture.alice_row = Some "alice"
    /\ graph.ObjectHandler__get Fixture.handler namedict = Ok resp
    /\ resp !! "alice" = Some Fixture.alice
    /\ resp !! sqlite3.obj_id Fixture.alice_row = None
    /\ graph.ObjectHandler_get Fixture.handler (Fixture.ids "alice,1") ""
       = Ok (graph.written (json_dumps None (JObj (map_to_list resp)))).
Proof.
  refine (alias_keys_the_response Fixture.handler (Fixture.ids "alice,1") ["1"; "alice"]
            Fixture.alice_row "alice" Fixture.alice _ _ _ _ _ _ _ _).
  - unfold sqlite3.well_formed. decide_by_evaluation.
  - vm_compute. reflexivity.
  - intros name Hname. exists Fixture.alice_row. split; [decide_by_evaluation|].
    apply elem_of_cons in Hname as [->|Hname]; [by left|].
    apply list_elem_of_singleton in Hname as ->. by right.
  - decide_by_evaluation.
  - decide_by_evaluation.
  - reflexivity.
  - decide_by_evaluation.
  - vm_compute. reflexivity.
Defined.

(** The bodies of the specification's examples: both orders give the one
    entry. *)
Example ids_prefer_alias :
  graph.ObjectHandler_get Fixture.handler (Fixture.ids "alice,1") ""
  = Ok (graph.written (json_dumps None (JObj [("alice", Fixture.alice)])))
  /\ graph.ObjectHandler_get Fixture.handler (Fixture.ids "1,alice") ""
     = Ok (graph.written (json_dumps None (JObj [("alice", Fixture.alice)]))).
Proof. split; vm_compute; reflexivity. Qed.

(** ** The identity [me] *)

Section me.
Import sqlite3 graph.
Context `{PySet} `{JsonCodec}.

(** C6, on the code: [init] stores [me] and nothing reads it.  Whatever
    identity the handler was initialised with, [GET /me] looks [me] up as a
    name; when no object has the id or the alias [me], the request ends in
    [AliasNotFoundError] for [me], not in the object of the identity. *)
Theorem me_is_not_resolved (self : Handler) (request : Request) :
  ("ids" ∉ arguments request) ->
  Forall (fun o => obj_id o <> "me" /\ obj_alias o <> Some "me") (graph_objects (conn self)) ->
  prepare_ids self request "me" = Raise (GraphErr (AliasNotFoundError "me"))
  /\ ObjectHandler_get self request "me"
     = Ok (written (json_dumps None
                      (error_object
                         "(#803) Some of the aliases you requested do not exist: me"
                         "OAuthException"))).
Proof.
  intros Hids Hobjects.
  assert (prepare_ids self request "me" = Raise (GraphErr (AliasNotFoundError "me"))) as Hp.
  { assert (requested_names request "me" = Ok ["me"]) as Hnames.
    { unfold requested_names. rewrite bool_decide_eq_false_2 by done. cbn.
      by rewrite set_iter_singleton. }
    assert (select_id_alias (conn self) ["me"] = []) as Hrows.
    { apply elem_of_nil_inv. intros [id alias] Hin.
      apply select_id_alias_elem in Hin as (o & Ho & <- & <- & Hmatch).
      rewrite Forall_forall in Hobjects. destruct (Hobjects o Ho) as [Hid Halias].
      destruct Hmatch as [Hin|Hin].
      - by apply list_elem_of_singleton in Hin.
      - unfold alias_in in Hin. destruct (obj_alias o) as [a|]; [|done].
        apply bool_decide_unpack, list_elem_of_singleton in Hin. congruence. }
    assert (not_found_names ["me"] ∅ = ["me"]) as Hnf.
    { unfold not_found_names, Py.values, Py.keys. rewrite map_to_list_empty.
      rewrite filter_cons_True by apply not_elem_of_nil.
      by rewrite filter_nil, set_iter_singleton. }
    unfold prepare_ids. rewrite Hnames. cbn -[not_found_names select_id_alias].
    rewrite Hrows. cbn -[not_found_names]. by rewrite Hnf. }
  split; [done|].
  unfold ObjectHandler_get.
  by rewrite (get_caught _ self request "me" (AliasNotFoundError "me")) by by left.
Qed.

End me.

(** The fixture, initialised with the identity 1: [/1] and [/alice] give
    alice's object, [/me] gives the alias-not-found error. *)
Lemma me_is_not_resolved_witness :
  graph.me Fixture.handler = 1
  /\ graph.ObjectHandler_get Fixture.handler Fixture.no_query "1"
     = Ok (graph.written (json_dumps None Fixture.alice))
  /\ graph.ObjectHandler_get Fixture.handler Fixture.no_query "alice"
     = Ok (graph.written (json_dumps None Fixture.alice))
  /\ graph.prepare_ids Fixture.handler Fixture.no_query "me"
     = Raise (GraphErr (AliasNotFoundError "me"))
  /\ graph.ObjectHandler_get Fixture.handler Fixture.no_query "me"
     = Ok (graph.written
             (json_dumps None
                (graph.error_object
                   "(#803) Some of the aliases you requested do not exist: me"
                   "OAuthException"))).
Proof.
  split; [reflexivity|]. split; [vm_compute; reflexivity|]. split; [vm_compute; reflexivity|].
  refine (me_is_not_resolved Fixture.handler Fixture.no_query _ _).
  - apply not_elem_of_nil.
  - repeat constructor; discriminate.
Defined.

(** * Further properties of the handlers *)

Section prepare_ids_outcomes.
Import sqlite3 graph.
Context `{PySet}.

(** A request in one of the two forms: the checks on the names decide. *)
Lemma requested_names_form (request : Request) (path_id : string) :
  (path_id = "" /\ "ids" ∈ arguments request)
  \/ (path_id <> "" /\ ("ids" ∉ arguments request)) ->
  requested_names request path_id
  = let names := set_iter (requested_list request path_id) in
    if forallb (fun name => Py.truthy name && negb (bool_decide (name = "0"))) names
    then Ok names else Raise (GraphErr EmptyIdentifierError).
Proof.
  unfold requested_names, requested_list. intros [[-> Hids]|[Hpath Hids]].
  - by rewrite bool_decide_eq_true_2.
  - rewrite bool_decide_eq_false_2 by done. by destruct path_id.
Qed.

(** After the checks on the names, [prepare_ids] ends in its dict or in one
    of the three not-found errors. *)
Lemma prepare_ids_resolved (self : Handler) (request : Request) (path_id : string)
    (names : list string) :
  requested_names request path_id = Ok names ->
  exists namedict,
    fill_namedict names (select_id_alias (conn self) names) ∅ = Ok namedict
    /\ prepare_ids self request path_id
       = match not_found_names names namedict with
         | [] => Ok {| names_by_id := namedict; single := Py.truthy path_id |}
         | _ :: _ =>
             match filter (fun name => not_int name) (not_found_names names namedict) with
             | (_ :: _) as aliases =>
                 Raise (GraphErr (AliasNotFoundError (Py.join "," aliases)))
             | [] =>
                 if Py.truthy path_id then Raise (GraphErr ObjectNotFoundError)
                 else Raise (GraphErr ObjectsNotFoundError)
             end
         end.
Proof.
  intros Hnames. destruct (fill_namedict_total (conn self) names) as [namedict Hfill].
  exists namedict. split; [done|]. unfold prepare_ids. rewrite Hnames. cbn.
  rewrite Hfill. cbn. destruct (not_found_names names namedict); [done|].
  by destruct (filter _ _).
Qed.


Lemma name_for_requested (names : list string) (id : string) (alias : option string) :
  id ∈ names \/ alias_in alias names -> name_for names id alias ∈ names.
Proof.
  unfold name_for, alias_in. destruct alias as [a|].
  - case_bool_decide; [done|]. by intros [?|?].
  - by intros [?|?].
Qed.

(** What [prepare_ids] returns: [single] tells a path identifier; every
    entry of the dict maps the id of a stored object to a requested name,
    which is that id or the alias of an object of that id; every requested
    name is a key or a value of the dict, is not empty and is not ["0"]. *)
Theorem prepare_ids_returns (self : Handler) (request : Request) (path_id : string)
    (namedict : NameDict) :
  prepare_ids self request path_id = Ok namedict ->
  single namedict = Py.truthy path_id
  /\ (forall id name,
        names_by_id namedict !! id = Some name ->
        name ∈ requested_list request path_id
        /\ exists o, o ∈ graph_objects (conn self) /\ obj_id o = id
                     /\ (name = id \/ obj_alias o = Some name))
  /\ (forall name,
        name ∈ requested_list request path_id ->
        name <> "" /\ name <> "0"
        /\ (name ∈ Py.values (names_by_id namedict)
            \/ name ∈ Py.keys (names_by_id namedict))).
Proof.
  intros Hp.
  destruct (requested_names request path_id) as [names|e] eqn:Hnames;
    [|unfold prepare_ids in Hp; by rewrite Hnames in Hp].
  assert (forall name, name ∈ names <-> name ∈ requested_list request path_id) as Hreq.
  { intros name. rewrite (requested_names_elem request path_id names name Hnames).
    unfold requested_list. destruct (Py.truthy path_id); [|done].
    by rewrite list_elem_of_singleton. }
  assert (Forall (fun name => name <> "" /\ name <> "0") names) as Hvalid.
  { unfold requested_names in Hnames.
    destruct (if Py.truthy path_id then _ else _) as [[l|]|]; cbn in Hnames; [|done..].
    destruct (forallb _ l) eqn:Hall; [|done]. injection Hnames as <-.
    apply Is_true_true, forallb_True in Hall. eapply Forall_impl; [exact Hall|].
    intros name [Hne H0]%andb_True. split.
    - by intros ->.
    - intros ->. by rewrite bool_decide_eq_true_2 in H0. }
  destruct (prepare_ids_resolved self request path_id names Hnames)
    as (nd & Hfill & Hp').
  rewrite Hp in Hp'.
  destruct (not_found_names names nd) as [|n nf] eqn:Hnf;
    [|by destruct (filter _ _), (Py.truthy path_id)].
  injection Hp' as ->. cbn. split_and!; [done| |].
  - intros id name Hl.
    destruct (fill_namedict_spec names (select_id_alias (conn self) names) ∅)
      as (nd' & Hfill' & Hfrom & _).
    { intros i a Hin. apply select_id_alias_elem in Hin. naive_solver. }
    rewrite Hfill in Hfill'. injection Hfill' as <-.
    destruct (Hfrom id name Hl) as [(alias & Hin & ->)|Hl'];
      [|by rewrite lookup_empty in Hl'].
    apply select_id_alias_elem in Hin as (o & Ho & <- & <- & Hmatch).
    split; [by apply Hreq, name_for_requested|].
    exists o. split_and!; [done..|]. unfold name_for.
    destruct (obj_alias o); [case_bool_decide|]; auto.
  - intros name Hname%Hreq. rewrite Forall_forall in Hvalid.
    destruct (Hvalid name Hname) as [??]. split_and!; [done..|].
    apply elem_of_app. destruct (decide (name ∈ Py.values nd ++ Py.keys nd)); [done|].
    assert (name ∈ not_found_names names nd) as Hin.
    { apply set_iter_elem, list_elem_of_filter. by split. }
    rewrite Hnf in Hin. by apply elem_of_nil in Hin.
Qed.

(** A name that is empty or ["0"] among the requested ones is what makes
    [prepare_ids] raise [EmptyIdentifierError], whatever the database
    holds. *)
Theorem empty_identifier_error (self : Handler) (request : Request) (path_id : string) :
  (path_id = "" /\ "ids" ∈ arguments request)
  \/ (path_id <> "" /\ ("ids" ∉ arguments request)) ->
  prepare_ids self request path_id = Raise (GraphErr EmptyIdentifierError)
  <-> exists name, name ∈ requested_list request path_id /\ (name = "" \/ name = "0").
Proof.
  intros Hform. pose proof (requested_names_form request path_id Hform) as Hnames.
  cbv zeta in Hnames.
  destruct (forallb _ (set_iter (requested_list request path_id))) eqn:Hall.
  - split.
    + intros Hp.
      destruct (prepare_ids_resolved self request path_id _ Hnames) as (nd & _ & Hp').
      rewrite Hp in Hp'. destruct (not_found_names _ nd); [done|].
      by destruct (filter _ _), (Py.truthy path_id).
    + intros (name & Hname & Hbad). exfalso.
      apply Is_true_true, forallb_True in Hall. rewrite Forall_forall in Hall.
      specialize (Hall name (proj2 (set_iter_elem name _) Hname)).
      apply andb_True in Hall as [Hne H0]. destruct Hbad as [->| ->]; [done|].
      by rewrite bool_decide_eq_true_2 in H0.
  - split; [intros _|intros _; unfold prepare_ids; by rewrite Hnames].
    apply not_true_iff_false in Hall. rewrite <- Is_true_true, forallb_True in Hall.
    apply not_Forall_Exists in Hall; [|intros x; apply _].
    apply Exists_exists in Hall as (name & Hname & Hbad).
    exists name. split; [by apply set_iter_elem|].
    destruct name as [|c name]; [by left|]. right.
    destruct (decide (String c name = "0")) as [|Hne]; [done|].
    destruct Hbad. by rewrite bool_decide_eq_false_2.
Qed.

End prepare_ids_outcomes.


Lemma prepare_ids_returns_witness :
  let namedict :=
    {| graph.names_by_id := {[ "1" := "alice" ]}; graph.single := false |} in
  graph.single namedict = Py.truthy ""
  /\ (forall id name,
        graph.names_by_id namedict !! id = Some name ->
        name ∈ graph.requested_list (Fixture.ids "alice,1") ""
        /\ exists o, o ∈ sqlite3.graph_objects (graph.conn Fixture.handler)
                     /\ sqlite3.obj_id o = id
                     /\ (name = id \/ sqlite3.obj_alias o = Some name))
  /\ (forall name,
        name ∈ graph.requested_list (Fixture.ids "alice,1") "" ->
        name <> "" /\ name <> "0"
        /\ (name ∈ Py.values (graph.names_by_id namedict)
            \/ name ∈ Py.keys (graph.names_by_id namedict))).
Proof.
  refine (prepare_ids_returns Fixture.handler (Fixture.ids "alice,1") ""
            {| graph.names_by_id := {[ "1" := "alice" ]}; graph.single := false |} _).
  vm_compute. reflexivity.
Defined.

Lemma empty_identifier_error_witness :
  graph.prepare_ids Fixture.handler (Fixture.ids "alice,,2") ""
  = Raise (GraphErr EmptyIdentifierError)
  <-> exists name, name ∈ graph.requested_list (Fixture.ids "alice,,2") ""
                   /\ (name = "" \/ name = "0").
Proof.
  refine (empty_identifier_error Fixture.handler (Fixture.ids "alice,,2") "" _).
  left. split; [reflexivity|]. by left.
Defined.

Section single_object.
Import sqlite3 graph.
Context `{PySet} `{JsonCodec}.

(** A dict with a value under [key] and no other key lists that one item. *)
Lemma map_to_list_only {A : Type} (d : gmap string A) (key : string) (v : A) :
  d !! key = Some v -> (forall key', is_Some (d !! key') -> key' = key) ->
  map_to_list d = [(key, v)].
Proof.
  intros Hkey Honly. rewrite <- map_to_list_singleton. f_equal.
  apply map_eq. intros key'. destruct (decide (key' = key)) as [->|Hne].
  - by rewrite lookup_singleton_eq.
  - rewrite lookup_singleton_ne by done.
    destruct (d !! key') eqn:Hl; [|done]. destruct Hne. apply Honly. by eexists.
Qed.

(** [GET /<id>] always gets an answer when the stored data is JSON: the
    empty-identifier error for ["0"]; when no object has the identifier as id
    or alias, the alias-not-found error if it is no integer and [false] if it
    is one; else the decoded data of an object whose id is that of an object
    with this id or alias.  The assertion [len(resp) == 1] never fails. *)
Theorem single_object_request (self : Handler) (request : Request) (path_id : string) :
  path_id <> "" ->
  ("ids" ∉ arguments request) ->
  Forall (fun o => is_Some (json_loads (obj_data o))) (graph_objects (conn self)) ->
  exists text,
    ObjectHandler_get self request path_id = Ok (written text)
    /\ ((path_id = "0" /\ text = unicode EmptyIdentifierError)
        \/ (path_id <> "0"
            /\ Forall (fun o => obj_id o <> path_id /\ obj_alias o <> Some path_id)
                      (graph_objects (conn self))
            /\ text = unicode (if not_int path_id then AliasNotFoundError path_id
                               else ObjectNotFoundError))
        \/ (exists o o' v,
              o ∈ graph_objects (conn self) /\ o' ∈ graph_objects (conn self)
              /\ obj_id o = obj_id o'
              /\ (obj_id o' = path_id \/ obj_alias o' = Some path_id)
              /\ json_loads (obj_data o) = Some v
              /\ text = json_dumps None v)).
Proof.
  intros Hpath Hids Hjson.
  assert (Py.truthy path_id = true) as Htruthy by by destruct path_id.
  pose proof (requested_names_form request path_id (or_intror (conj Hpath Hids))) as Hnames.
  unfold requested_list in Hnames. rewrite Htruthy, set_iter_singleton in Hnames.
  cbn in Hnames. rewrite Htruthy in Hnames. cbn in Hnames.
  case_bool_decide as Hzero; cbn in Hnames.
  { exists (unicode EmptyIdentifierError). split; [|by left].
    apply get_caught. left. unfold prepare_ids. by rewrite Hnames. }
  destruct (prepare_ids_resolved self request path_id [path_id] Hnames)
    as (nd & Hfill & Hp).
  destruct (fill_namedict_spec [path_id] (select_id_alias (conn self) [path_id]) ∅)
    as (nd' & Hfill' & Hfrom & Hdom).
  { intros i a Hin. apply select_id_alias_elem in Hin. naive_solver. }
  rewrite Hfill in Hfill'. injection Hfill' as <-.
  assert (forall id name, nd !! id = Some name ->
            name = path_id
            /\ exists o', o' ∈ graph_objects (conn self) /\ obj_id o' = id
                          /\ (obj_id o' = path_id \/ obj_alias o' = Some path_id)) as Hnd.
  { intros id name Hl.
    destruct (Hfrom id name Hl) as [(alias & Hin & ->)|Hl'];
      [|by rewrite lookup_empty in Hl'].
    apply select_id_alias_elem in Hin as (o' & Ho' & <- & <- & Hmatch).
    split; [by apply list_elem_of_singleton, name_for_requested|].
    exists o'. split_and!; [done..|]. destruct Hmatch as [Hm|Hm].
    - left. by apply list_elem_of_singleton in Hm.
    - right. unfold alias_in in Hm. destruct (obj_alias o') as [a|]; [|done].
      apply bool_decide_unpack, list_elem_of_singleton in Hm. by subst. }
  destruct (decide (path_id ∈ Py.values nd ++ Py.keys nd)) as [Hfound|Hnone].
  - (* found *)
    assert (not_found_names [path_id] nd = []) as Hnf.
    { unfold not_found_names. rewrite filter_cons_False by (by intros Hn; apply Hn).
      by rewrite filter_nil, set_iter_nil. }
    rewrite Hnf, Htruthy in Hp.
    destruct (object_dict_spec nd (select_id_data (conn self) (Py.keys nd)) ∅)
      as (resp & Hresp & Hrfrom & Hrdom).
    { apply Forall_forall. intros [id data] Hrow.
      apply select_id_data_elem in Hrow as (o & Ho & _ & <- & Hid).
      split; [by apply keys_elem|]. rewrite Forall_forall in Hjson. by apply Hjson. }
    assert (exists id, is_Some (nd !! id)) as (id & name & Hid).
    { apply elem_of_app in Hfound as [Hv|Hk].
      - apply values_elem in Hv as [id Hv]. by exists id, path_id.
      - apply keys_elem in Hk. by exists path_id. }
    destruct (Hnd id name Hid) as (-> & o' & Ho' & Hido' & Hmatch).
    destruct (Hrdom path_id) as [v Hv].
    { left. exists id, (obj_data o'). split; [|done].
      apply select_id_data_elem. exists o'. split_and!; [done..|].
      apply keys_elem. by eexists. }
    assert (map_to_list resp = [(path_id, v)]) as Hlist.
    { apply map_to_list_only; [done|]. intros key' [v' Hv'].
      destruct (Hrfrom key' v' Hv') as [(i & d & _ & Hi & _)|Hl'];
        [|by rewrite lookup_empty in Hl'].
      by destruct (Hnd i key' Hi) as [-> _]. }
    exists (json_dumps None v). split.
    + unfold ObjectHandler_get, get. rewrite Hp. cbn.
      unfold ObjectHandler__get. cbn. rewrite Hresp. cbn.
      unfold shape. cbn. by rewrite Hlist.
    + do 2 right.
      destruct (Hrfrom path_id v Hv) as [(i & d & Hin & Hi & Hload)|Hl'];
        [|by rewrite lookup_empty in Hl'].
      apply select_id_data_elem in Hin as (o & Ho & <- & <- & _).
      destruct (Hnd _ _ Hi) as (_ & o'' & Ho'' & Hido'' & Hmatch'').
      exists o, o'', v. by split_and!.
  - (* not found *)
    assert (not_found_names [path_id] nd = [path_id]) as Hnf.
    { unfold not_found_names. rewrite filter_cons_True by done.
      by rewrite filter_nil, set_iter_singleton. }
    rewrite Hnf, Htruthy in Hp.
    eexists. split; [apply get_caught; left|right; left; split_and!; [done| |done]].
    + rewrite Hp. destruct (not_int path_id) eqn:Hint.
      * rewrite filter_cons_True; [by rewrite filter_nil|]. by apply Is_true_true.
      * rewrite filter_cons_False; [by rewrite filter_nil|].
        intros Hyes%Is_true_true. congruence.
    + apply Forall_forall. intros o Ho.
      assert (~ is_Some (nd !! obj_id o)) as Hkey.
      { intros [name Hname]. destruct (Hnd _ _ Hname) as [-> _].
        apply Hnone, elem_of_app. left. apply values_elem. by eexists. }
      split.
      * intros Hid. apply Hkey, Hdom. left. apply list_elem_of_fmap.
        exists (obj_id o, obj_alias o). split; [done|].
        apply select_id_alias_elem. exists o. split_and!; [done..|].
        left. rewrite Hid. by left.
      * intros Halias. apply Hkey, Hdom. left. apply list_elem_of_fmap.
        exists (obj_id o, obj_alias o). split; [done|].
        apply select_id_alias_elem. exists o. split_and!; [done..|].
        right. unfold alias_in. rewrite Halias. apply bool_decide_pack. by left.
Qed.

End single_object.

Lemma single_object_request_witness :
  exists text,
    graph.ObjectHandler_get Fixture.handler Fixture.no_query "alice"
    = Ok (graph.written text)
    /\ (("alice" = "0" /\ text = graph.unicode EmptyIdentifierError)
        \/ ("alice" <> "0"
            /\ Forall (fun o => sqlite3.obj_id o <> "alice"
                                /\ sqlite3.obj_alias o <> Some "alice")
                      (sqlite3.graph_objects (graph.conn Fixture.handler))
            /\ text = graph.unicode (if graph.not_int "alice"
                                     then AliasNotFoundError "alice"
                                     else ObjectNotFoundError))
        \/ (exists o o' v,
              o ∈ sqlite3.graph_objects (graph.conn Fixture.handler)
              /\ o' ∈ sqlite3.graph_objects (graph.conn Fixture.handler)
              /\ sqlite3.obj_id o = sqlite3.obj_id o'
              /\ (sqlite3.obj_id o' = "alice" \/ sqlite3.obj_alias o' = Some "alice")
              /\ json_loads (sqlite3.obj_data o) = Some v
              /\ text = json_dumps None v)).
Proof.
  refine (single_object_request Fixture.handler Fixture.no_query "alice" _ _ _).
  - discriminate.
  - apply not_elem_of_nil.
  - decide_by_evaluation.
Defined.

Section object_response.
Import sqlite3 graph.
Context `{PySet} `{JsonCodec}.

(** The dict of an object request that succeeds, over a database with unique
    ids and aliases: its entries are the decoded objects that have a requested
    id or alias, each under its alias when the alias is requested and else
    under its id; every key is a requested name. *)
Theorem object_response_entries (self : Handler) (request : Request) (path_id : string)
    (names : list string) :
  well_formed (conn self) ->
  requested_names request path_id = Ok names ->
  (forall name, name ∈ names ->
     exists o, o ∈ graph_objects (conn self)
               /\ (obj_id o = name \/ obj_alias o = Some name)) ->
  Forall (fun o => is_Some (json_loads (obj_data o))) (graph_objects (conn self)) ->
  exists namedict resp,
    prepare_ids self request path_id = Ok namedict
    /\ ObjectHandler__get self namedict = Ok resp
    /\ forall key v,
         resp !! key = Some v <->
         exists o, o ∈ graph_objects (conn self)
                   /\ json_loads (obj_data o) = Some v
                   /\ key ∈ names
                   /\ (obj_alias o = Some key
                       \/ (obj_id o = key /\ ~ alias_in (obj_alias o) names)).
Proof.
  intros Hwf Hnames Hfound Hjson.
  pose proof Hwf as (Hids & Haliases & _).
  destruct (prepare_ids_resolved self request path_id names Hnames) as (nd & Hfill & Hp).
  rewrite (all_found (conn self) names nd Hids Hfill Hfound) in Hp.
  pose proof (fun id name => fill_namedict_lookup (conn self) names nd id name Hids Hfill)
    as Hnd.
  destruct (object_dict_spec nd (select_id_data (conn self) (Py.keys nd)) ∅)
    as (resp & Hresp & Hfrom & Hdom).
  { apply Forall_forall. intros [id data] Hrow.
    apply select_id_data_elem in Hrow as (o & Ho & _ & <- & Hid).
    split; [by apply keys_elem|]. rewrite Forall_forall in Hjson. by apply Hjson. }
  assert (forall key v,
            resp !! key = Some v ->
            exists o, o ∈ graph_objects (conn self)
                      /\ key = name_for names (obj_id o) (obj_alias o)
                      /\ (obj_id o ∈ names \/ alias_in (obj_alias o) names)
                      /\ json_loads (obj_data o) = Some v) as Hrow.
  { intros key v Hl. destruct (Hfrom key v Hl) as [(id & data & Hin & Hname & Hload)|Hl'];
      [|by rewrite lookup_empty in Hl'].
    apply select_id_data_elem in Hin as (o & Ho & <- & <- & _).
    apply Hnd in Hname as (o' & Ho' & Hid & Hmatch & ->).
    rewrite (NoDup_fmap_eq obj_id _ o' o Hids Ho' Ho Hid) in Hmatch |- *.
    by exists o. }
  assert (forall o, o ∈ graph_objects (conn self) ->
                    obj_id o ∈ names \/ alias_in (obj_alias o) names ->
                    is_Some (resp !! name_for names (obj_id o) (obj_alias o))) as Hentry.
  { intros o Ho Hmatch.
    assert (nd !! obj_id o = Some (name_for names (obj_id o) (obj_alias o))) as Hkey.
    { apply Hnd. by exists o. }
    apply Hdom. left. exists (obj_id o), (obj_data o). split; [|done].
    apply select_id_data_elem. exists o. split_and!; [done..|].
    apply keys_elem. by eexists. }
  exists {| names_by_id := nd; single := Py.truthy path_id |}, resp.
  split_and!; [done| |].
  { unfold ObjectHandler__get. by cbn. }
  intros key v. split.
  - intros Hl. destruct (Hrow key v Hl) as (o & Ho & -> & Hmatch & Hload).
    exists o. split_and!; [done..|by apply name_for_requested|].
    unfold name_for, alias_in in *. destruct (obj_alias o) as [a|].
    + case_bool_decide as Ha; [by left|]. right. split; [done|]. by intros ?.
    + right. split; [done|]. by intros ?.
  - intros (o & Ho & Hload & Hkey & Hcase).
    assert (key = name_for names (obj_id o) (obj_alias o)
            /\ (obj_id o ∈ names \/ alias_in (obj_alias o) names)) as [Hname Hmatch].
    { unfold name_for, alias_in. destruct Hcase as [Halias|[Hid Hout]].
      - rewrite Halias, !bool_decide_eq_true_2 by done. split; [done|by right].
      - subst key. split; [|by left]. unfold alias_in in Hout.
        destruct (obj_alias o) as [a|]; [|done].
        case_bool_decide; [|done]. by destruct Hout. }
    destruct (Hentry o Ho Hmatch) as [v' Hv']. rewrite <- Hname in Hv'.
    rewrite Hv'. f_equal.
    destruct (Hrow key v' Hv') as (o' & Ho' & Hname' & Hmatch' & Hload').
    assert (o' = o) as ->; [|congruence].
    rewrite Hname in Hname'. unfold name_for in Hname'.
    destruct (obj_alias o) as [a|] eqn:Ha, (obj_alias o') as [a'|] eqn:Ha';
      repeat case_bool_decide; subst;
      try (by eapply (NoDup_omap_eq obj_alias _ o' o); eauto);
      try (by eapply (NoDup_fmap_eq obj_id _ o' o); eauto);
      try (by destruct (alias_is_no_id (conn self) o o' _ Hwf Ho Ho' Ha));
      try (by destruct (alias_is_no_id (conn self) o' o _ Hwf Ho' Ho Ha')).
Qed.

End object_response.

Lemma object_response_entries_witness :
  exists namedict resp,
    graph.prepare_ids Fixture.handler (Fixture.ids "bob,1") "" = Ok namedict
    /\ graph.ObjectHandler__get Fixture.handler namedict = Ok resp
    /\ forall key v,
         resp !! key = Some v <->
         exists o, o ∈ sqlite3.graph_objects (graph.conn Fixture.handler)
                   /\ json_loads (sqlite3.obj_data o) = Some v
                   /\ key ∈ ["1"; "bob"]
                   /\ (sqlite3.obj_alias o = Some key
                       \/ (sqlite3.obj_id o = key
                           /\ ~ sqlite3.alias_in (sqlite3.obj_alias o) ["1"; "bob"])).
Proof.
  refine (object_response_entries Fixture.handler (Fixture.ids "bob,1") "" ["1"; "bob"]
            _ _ _ _).
  - unfold sqlite3.well_formed. decide_by_evaluation.
  - vm_compute. reflexivity.
  - intros name Hname. apply elem_of_cons in Hname as [->|Hname].
    + exists Fixture.alice_row. split; [decide_by_evaluation|by left].
    + apply list_elem_of_singleton in Hname as ->.
      exists {| sqlite3.obj_id := "2"; sqlite3.obj_alias := Some "bob";
                sqlite3.obj_data := Fixture.render None 0 Fixture.bob |}.
      split; [decide_by_evaluation|by right].
  - decide_by_evaluation.
Defined.

Section connection_errors.
Import sqlite3 graph.
Context `{PySet} `{JsonCodec}.

(** The loop over the rows fails only on a row that is no JSON, when every
    row has a name with an entry in [resp]. *)
Lemma append_rows_raises (namedict : gmap string string) (rows : list (string * string))
    (resp : gmap string (list json)) (e : exn) :
  Forall (fun row => exists name, namedict !! row.1 = Some name
                                  /\ is_Some (resp !! name)) rows ->
  append_rows namedict rows resp = Raise e ->
  e = ValueError /\ exists id data, (id, data) ∈ rows /\ json_loads data = None.
Proof.
  revert resp. induction rows as [|[id data] rows IH]; intros resp Hrows; simpl; [done|].
  apply Forall_cons in Hrows as [(name & Hname & [entry Hentry]) Hrows].
  cbn in Hname. unfold getitem, loads. rewrite Hname. cbn. rewrite Hentry. cbn.
  destruct (json_loads data) as [value|] eqn:Hvalue; cbn.
  - intros Hraise. destruct (IH (<[name := entry ++ [value]]> resp)) as (-> & i & d & Hin & Hd);
      [|done|].
    + eapply Forall_impl; [exact Hrows|]. intros row (name' & ? & ?).
      exists name'. split; [done|]. rewrite lookup_insert_is_Some'. by right.
    + split; [done|]. exists i, d. split; [by right|done].
  - intros [= <-]. split; [done|]. exists id, data. split; [left|done].
Qed.

(** What [ConnectionHandler._get] raises: [UnknownPathError] for a
    connection outside [all_connections]; for [picture] with rows, what the
    first row decides (the redirect, [ValueError] when it is no JSON,
    [AttributeError] when it is no string); else [ValueError] for a row that
    is no JSON.  A row never misses its name or its entry: no [KeyError]. *)
Theorem connection_get_raises (self : Handler) (connection : string) (namedict : NameDict)
    (e : exn) :
  let rows :=
    select_connection (conn self) (Py.keys (names_by_id namedict)) connection in
  ConnectionHandler__get self connection namedict = Raise e ->
  (e = GraphErr (UnknownPathError connection) /\ (connection ∉ all_connections self))
  \/ (connection ∈ all_connections self
      /\ connection = REDIRECT_CONNECTION
      /\ exists id data rest,
           rows = (id, data) :: rest
           /\ e = match json_loads data with
                  | Some (JStr url) => HTTPException 302 url
                  | Some _ => AttributeError
                  | None => ValueError
                  end)
  \/ (connection ∈ all_connections self
      /\ e = ValueError
      /\ exists id data, (id, data) ∈ rows /\ json_loads data = None).
Proof.
  intros rows. unfold ConnectionHandler__get. fold rows.
  assert (Forall (fun row => exists name,
                    names_by_id namedict !! row.1 = Some name
                    /\ is_Some (empty_lists (Py.values (names_by_id namedict)) !! name))
                 rows) as Hnamed.
  { apply Forall_forall. intros [id data] Hrow.
    apply select_connection_elem in Hrow as (r & _ & _ & _ & Hid & _).
    apply keys_elem in Hid as [name Hname]. exists name. split; [done|].
    rewrite empty_lists_lookup, bool_decide_eq_true_2; [by eexists|].
    apply values_elem. by eexists. }
  clearbody rows. case_bool_decide as Hc; cbn.
  2:{ intros [= <-]. by left. }
  unfold redirect_first. case_bool_decide as Hp.
  - destruct rows as [|[id data] rest].
    + by cbn.
    + unfold loads. destruct (json_loads data) as [v|] eqn:Hv; cbn.
      * destruct v; cbn; intros [= <-]; right; left; (split_and!; [done..|]);
          exists id, data, rest; by rewrite Hv.
      * intros [= <-]. right. left. split_and!; [done..|].
        exists id, data, rest. by rewrite Hv.
  - cbn. destruct (append_rows _ rows _) as [resp|e'] eqn:Ha; [done|].
    cbn. intros [= <-]. right. right. split; [done|].
    by apply (append_rows_raises _ _ _ _ Hnamed) in Ha.
Qed.

(** [init] makes [all_connections] the union of the schema's tuples: a
    connection is in it exactly when some table of the schema lists it, and
    that is when [ConnectionHandler._get] does not raise
    [UnknownPathError]. *)
Theorem init_all_connections (conn : Connection) (me : Z) (read : schemautil.GraphSchema)
    (connection : string) :
  (connection ∈ all_connections (init conn me read)
   <-> exists table names,
         schemautil.connections read !! table = Some names /\ connection ∈ names)
  /\ (forall namedict,
        ConnectionHandler__get (init conn me read) connection namedict
        = Raise (GraphErr (UnknownPathError connection))
        <-> ~ exists table names,
                schemautil.connections read !! table = Some names /\ connection ∈ names).
Proof.
  assert (forall (l : list (list string)) (acc : gset string),
            connection ∈ foldl (fun acc names => acc ∪ list_to_set names) acc l
            <-> connection ∈ acc \/ exists names, names ∈ l /\ connection ∈ names) as Hfold.
  { induction l as [|names l IH]; intros acc; cbn.
    - split; [by left|]. intros [?|(names & Hin & _)]; [done|by apply elem_of_nil in Hin].
    - rewrite IH, elem_of_union, elem_of_list_to_set. split.
      + intros [[?|?]|(names' & ? & ?)]; [by left| |].
        * right. exists names. split; [left|done].
        * right. exists names'. split; [by right|done].
      + intros [?|(names' & [->|?]%elem_of_cons & ?)]; [by left; left|by left; right|].
        right. by exists names'. }
  assert (connection ∈ all_connections (init conn me read)
          <-> exists table names,
                schemautil.connections read !! table = Some names /\ connection ∈ names)
    as Hall.
  { cbn. rewrite Hfold. split.
    - intros [Hin|(names & Hnames & Hin)]; [by apply elem_of_empty in Hin|].
      apply values_elem in Hnames as [table Htable]. by exists table, names.
    - intros (table & names & Htable & Hin). right. exists names. split; [|done].
      apply values_elem. by exists table. }
  split; [done|]. intros namedict. rewrite <- Hall. split.
  - intros Hraise Hin. unfold ConnectionHandler__get in Hraise.
    rewrite bool_decide_eq_true_2 in Hraise by done. cbn in Hraise.
    destruct (redirect_first _ _) as [[]|e] eqn:Hredirect; cbn in Hraise.
    + destruct (append_rows _ _ _) as [resp|e] eqn:Hrows; [done|].
      cbn in Hraise. injection Hraise as ->. clear Hredirect.
      revert Hrows. generalize (empty_lists (Py.values (names_by_id namedict))).
      induction (select_connection _ _ _) as [|[id data] rows IH]; intros resp; [done|].
      cbn. unfold getitem, loads.
      destruct (names_by_id namedict !! id); [|done]. cbn.
      destruct (resp !! s); [|done]. cbn.
      destruct (json_loads data); [|done]. cbn. apply IH.
    + injection Hraise as ->. unfold redirect_first, loads, redirect in Hredirect.
      case_bool_decide; [|done].
      destruct (select_connection _ _ _) as [|[id data] rows]; [done|].
      destruct (json_loads data) as [[]|]; by cbn in Hredirect.
  - intros Hout. unfold ConnectionHandler__get. by rewrite bool_decide_eq_false_2.
Qed.

(** [qmarks] gives one question mark for each value: split at the commas,
    its result is as many question marks as there are values. *)
Theorem qmarks_one_per_value (values : list string) :
  values <> [] ->
  Py.split "," (qmarks values) = replicate (List.length values) "?".
Proof.
  unfold qmarks. destruct values as [|v values]; [done|]. intros _.
  cbn [List.length]. induction (List.length values) as [|n IH]; [done|].
  change (Py.split "," (Py.join "," (replicate (S (S n)) "?")))
    with ("?" :: Py.split "," (Py.join "," (replicate (S n) "?"))).
  by rewrite IH.
Qed.

End connection_errors.

Lemma connection_get_raises_witness :
  (GraphErr (UnknownPathError "foo") = GraphErr (UnknownPathError "foo")
   /\ ("foo" ∉ graph.all_connections Fixture.handler))
  \/ ("foo" ∈ graph.all_connections Fixture.handler
      /\ "foo" = graph.REDIRECT_CONNECTION
      /\ exists id data rest,
           sqlite3.select_connection (graph.conn Fixture.handler)
             (Py.keys (graph.names_by_id
                         {| graph.names_by_id := {[ "1" := "alice" ]};
                            graph.single := true |})) "foo"
           = (id, data) :: rest
           /\ GraphErr (UnknownPathError "foo")
              = match json_loads data with
                | Some (JStr url) => HTTPException 302 url
                | Some _ => AttributeError
                | None => ValueError
                end)
  \/ ("foo" ∈ graph.all_connections Fixture.handler
      /\ GraphErr (UnknownPathError "foo") = ValueError
      /\ exists id data,
           (id, data) ∈ sqlite3.select_connection (graph.conn Fixture.handler)
                          (Py.keys (graph.names_by_id
                                      {| graph.names_by_id := {[ "1" := "alice" ]};
                                         graph.single := true |})) "foo"
           /\ json_loads data = None).
Proof.
  refine (connection_get_raises Fixture.handler "foo"
            {| graph.names_by_id := {[ "1" := "alice" ]}; graph.single := true |}
            (GraphErr (UnknownPathError "foo")) _).
  vm_compute. reflexivity.
Defined.

Lemma qmarks_one_per_value_witness :
  Py.split "," (graph.qmarks ["1"; "alice"]) = replicate (List.length ["1"; "alice"]) "?".
Proof. refine (qmarks_one_per_value ["1"; "alice"] _). discriminate. Defined.

Section single_connection.
Import sqlite3 graph.
Context `{PySet} `{JsonCodec}.

(** The dict of a request with a path identifier: every value is that
    identifier, and it is a value. *)
Lemma single_namedict (self : Handler) (request : Request) (path_id : string)
    (namedict : NameDict) :
  path_id <> "" ->
  prepare_ids self request path_id = Ok namedict ->
  single namedict = true
  /\ (forall id name, names_by_id namedict !! id = Some name -> name = path_id)
  /\ path_id ∈ Py.values (names_by_id namedict).
Proof.
  intros Hpath Hprep.
  assert (Py.truthy path_id = true) as Htruthy by by destruct path_id.
  assert (requested_names request path_id = Ok [path_id]
          \/ exists e, requested_names request path_id = Raise e) as [Hnames|[e Hnames]].
  { unfold requested_names. rewrite Htruthy.
    destruct (set_truthy _); cbn; [right; by eexists|].
    rewrite set_iter_singleton. destruct (forallb _ _); [by left|right; by eexists]. }
  2:{ unfold prepare_ids in Hprep. by rewrite Hnames in Hprep. }
  destruct (prepare_ids_resolved self request path_id [path_id] Hnames)
    as (nd & Hfill & Hp).
  rewrite Hp in Hprep. clear Hp.
  destruct (not_found_names [path_id] nd) as [|missing others] eqn:Hnf.
  2:{ destruct (filter _ _); [|done]. by destruct (Py.truthy path_id). }
  injection Hprep as <-. cbn [single names_by_id].
  destruct (fill_namedict_spec [path_id] (select_id_alias (conn self) [path_id]) ∅)
    as (nd' & Hfill' & Hfrom & _).
  { intros i a Hin. apply select_id_alias_elem in Hin. naive_solver. }
  rewrite Hfill in Hfill'. injection Hfill' as <-.
  assert (forall id name, nd !! id = Some name -> name = path_id) as Hvalues.
  { intros id name Hl.
    destruct (Hfrom id name Hl) as [(alias & Hin & ->)|Hl'];
      [|by rewrite lookup_empty in Hl'].
    apply select_id_alias_elem in Hin as (o' & _ & <- & <- & Hmatch).
    by apply list_elem_of_singleton, name_for_requested. }
  split_and!; [done..|].
  destruct (decide (path_id ∈ Py.values nd ++ Py.keys nd)) as [Hfound|Hnone].
  - apply elem_of_app in Hfound as [Hv|Hk]; [done|].
    apply keys_elem in Hk as [name Hname].
    apply values_elem. exists path_id. by rewrite (Hvalues _ _ Hname) in Hname.
  - unfold not_found_names in Hnf. rewrite filter_cons_True in Hnf by done.
    by rewrite filter_nil, set_iter_singleton in Hnf.
Qed.

(** When every row names the same [name], its decoded data is that of all
    the rows. *)
Lemma data_for_all (namedict : gmap string string) (name : string)
    (rows : list (string * string)) :
  Forall (fun row => namedict !! row.1 = Some name) rows ->
  data_for namedict name rows = omap (fun row => json_loads row.2) rows.
Proof.
  unfold data_for. induction 1 as [|row rows Hrow _ IH]; [done|].
  cbn. rewrite bool_decide_eq_true_2 by done. by rewrite IH.
Qed.

(** [ConnectionHandler.get] for a path identifier, in terms of the rows its
    query returns. *)
Lemma single_connection_rows (self : Handler) (request : Request)
    (path_id connection : string) (namedict : NameDict) :
  let rows :=
    select_connection (conn self) (Py.keys (names_by_id namedict)) connection in
  path_id <> "" ->
  prepare_ids self request path_id = Ok namedict ->
  connection ∈ all_connections self ->
  (connection = REDIRECT_CONNECTION -> rows = []) ->
  Forall (fun row => is_Some (json_loads row.2)) rows ->
  ConnectionHandler_get self request path_id connection
  = Ok (written (json_dumps None
                   (data_object (omap (fun row => json_loads row.2) rows)))).
Proof.
  intros rows Hpath Hprep Hconnection Hredirect Hjson.
  destruct (single_namedict self request path_id namedict Hpath Hprep)
    as (Hsingle & Hvalues & Hvalue).
  assert (Forall (fun row => names_by_id namedict !! row.1 = Some path_id) rows) as Hnamed.
  { apply Forall_forall. intros [id data] Hrow.
    apply select_connection_elem in Hrow as (r & _ & _ & _ & Hid & _).
    apply keys_elem in Hid as [name Hname]. cbn.
    by rewrite (Hvalues _ _ Hname) in Hname. }
  destruct (append_rows_spec (names_by_id namedict) rows
              (empty_lists (Py.values (names_by_id namedict))))
    as (resp & Hrows & Hresp).
  { apply Forall_forall. intros row Hrow. exists path_id.
    rewrite Forall_forall in Hnamed, Hjson. split_and!; [by apply Hnamed| |by apply Hjson].
    rewrite empty_lists_lookup, bool_decide_eq_true_2 by done. by eexists. }
  assert (map_to_list (data_object <$> resp)
          = [(path_id, data_object (omap (fun row => json_loads row.2) rows))]) as Hlist.
  { apply map_to_list_only.
    - rewrite lookup_fmap, Hresp, empty_lists_lookup, bool_decide_eq_true_2 by done.
      cbn. by rewrite data_for_all.
    - intros key. rewrite lookup_fmap, Hresp, empty_lists_lookup.
      case_bool_decide as Hkey; [|by intros [? ?]]. intros _.
      apply values_elem in Hkey as [id Hid]. by apply (Hvalues id). }
  assert (redirect_first connection rows = Ok tt) as Hfirst.
  { unfold redirect_first. case_bool_decide; [|done]. by rewrite Hredirect. }
  unfold ConnectionHandler_get, get. rewrite Hprep. cbn.
  unfold ConnectionHandler__get. rewrite bool_decide_eq_true_2 by done. cbn.
  fold rows. rewrite Hfirst. cbn. rewrite Hrows. cbn.
  unfold shape. by rewrite Hsingle, Hlist.
Qed.

(** [GET /<id>/<connection>] for an identifier that resolves and a connection
    of the schema, when the stored rows that match (the rows of
    [graph_connections] of this connection whose id is a key of the dict of
    [prepare_ids]) hold JSON and none redirects: the answer is the object
    [{"data": [...]}] with the decoded data of every one of these stored
    rows, once for each row and in storage order; it is [{"data": []}]
    without such rows.  The assertion [len(resp) == 1] never fails. *)
Theorem single_connection_request (self : Handler) (request : Request)
    (path_id connection : string) (namedict : NameDict) :
  let stored :=
    filter (fun r => row_connection r = connection
                     /\ is_Some (names_by_id namedict !! row_id r))
           (graph_connections (conn self)) in
  path_id <> "" ->
  prepare_ids self request path_id = Ok namedict ->
  connection ∈ all_connections self ->
  (connection = REDIRECT_CONNECTION -> stored = []) ->
  Forall (fun r => is_Some (json_loads (row_data r))) stored ->
  ConnectionHandler_get self request path_id connection
  = Ok (written (json_dumps None
                   (data_object (omap (fun r => json_loads (row_data r)) stored)))).
Proof.
  intros stored Hpath Hprep Hconnection Hredirect Hjson.
  assert (select_connection (conn self) (Py.keys (names_by_id namedict)) connection
          = (fun r => (row_id r, row_data r)) <$> stored) as Hrows.
  { unfold select_connection. f_equal. apply list_filter_iff. intros r.
    unfold Py.keys. rewrite list_elem_of_fmap. split.
    - intros [([k v] & -> & Hin) Hc]. apply elem_of_map_to_list in Hin.
      split; [done|]. by eexists.
    - intros [Hc [v Hv]]. split; [|done]. exists (row_id r, v).
      split; [done|]. by apply elem_of_map_to_list. }
  rewrite (single_connection_rows self request path_id connection namedict Hpath Hprep
             Hconnection).
  - rewrite Hrows. do 4 f_equal. clear Hrows Hredirect Hjson.
    induction stored as [|r l IH]; [done|]. cbn. by rewrite IH.
  - intros Hpicture. by rewrite Hrows, (Hredirect Hpicture).
  - rewrite Hrows. by apply Forall_fmap.
Qed.

End single_connection.

Lemma single_connection_request_witness :
  graph.ConnectionHandler_get Fixture.handler Fixture.no_query "alice" "albums"
  = Ok (graph.written
          (json_dumps None
             (graph.data_object
                (omap (fun r => json_loads (sqlite3.row_data r))
                   (filter (fun r =>
                              sqlite3.row_connection r = "albums"
                              /\ is_Some (graph.names_by_id
                                            {| graph.names_by_id := {[ "1" := "alice" ]};
                                               graph.single := true |}
                                          !! sqlite3.row_id r))
                           (sqlite3.graph_connections (graph.conn Fixture.handler))))))).
Proof.
  refine (single_connection_request Fixture.handler Fixture.no_query "alice" "albums"
            {| graph.names_by_id := {[ "1" := "alice" ]}; graph.single := true |}
            _ _ _ _ _).
  - discriminate.
  - vm_compute. reflexivity.
  - decide_by_evaluation.
  - discriminate.
  - decide_by_evaluation.
Defined.

Section integers.
Import graph.

Lemma digits_all (s : string) (acc : Z) :
  forallb Py.isdigit (String.list_ascii_of_string s) = true ->
  exists v, Py.digits acc s = (v, String.length s, EmptyString).
Proof.
  revert acc. induction s as [|c s IH]; intros acc Hall; cbn in *.
  - by exists acc.
  - apply andb_prop in Hall as [Hc Hs]. rewrite Hc.
    destruct (IH (10 * acc + (Z.of_nat (nat_of_ascii c) - 48)) Hs) as [v ->].
    by exists v.
Qed.

Lemma isdigit_no_space (c : ascii) : Py.isdigit c = true -> Py.isspace c = false.
Proof.
  unfold Py.isdigit, Py.isspace. intros Hc. apply andb_prop in Hc as [Hlow _].
  apply Nat.leb_le in Hlow. apply orb_false_intro.
  - apply Nat.eqb_neq. lia.
  - apply andb_false_intro2. apply Nat.leb_gt. lia.
Qed.

(** A string of decimal digits, at least one, is an integer for [is_int],
    and so [not_int], which picks the aliases among the names that were not
    found, leaves it out. *)
Theorem digits_are_int (str : string) :
  str <> "" ->
  forallb Py.isdigit (String.list_ascii_of_string str) = true ->
  is_int str = true /\ not_int str = false.
Proof.
  intros Hstr Hall. assert (is_int str = true) as Hint; [|by unfold not_int; rewrite Hint].
  destruct str as [|c s]; [done|]. clear Hstr.
  destruct (digits_all (String c s) 0 Hall) as [v Hv].
  cbn in Hall. apply andb_prop in Hall as [Hc _].
  pose proof (isdigit_no_space c Hc) as Hspace.
  assert (Py.lstrip (String c s) = String c s) as Hstrip by (cbn; by rewrite Hspace).
  assert (c <> "-"%char /\ c <> "+"%char) as [Hminus Hplus].
  { split; intros ->; discriminate Hc. }
  unfold is_int, Py.int. rewrite Hstrip.
  assert ((match String c s with
           | String "-" r => (true, r)
           | String "+" r => (false, r)
           | _ => (false, String c s)
           end) = (false, String c s)) as ->.
  { destruct c as [[] [] [] [] [] [] [] []]; try done. }
  rewrite Hstrip, Hv. done.
Qed.

End integers.

Lemma digits_are_int_witness :
  graph.is_int "42" = true /\ graph.not_int "42" = false.
Proof. refine (digits_are_int "42" _ _); [discriminate|reflexivity]. Defined.

(** * Further properties of the schema and the dataset *)

Section sql_values.
Import sqlite3 schemautil.
Context `{JsonCodec}.

Lemma read_string_body_replace (s : string) :
  read_string_body (Py.replace "'" "''" s +:+ "'") = Some s.
Proof.
  induction s as [|c s IH]; [done|]. cbn [Py.replace].
  destruct (Ascii.eqb c "'") eqn:Hc.
  - apply Ascii.eqb_eq in Hc as ->.
    change (read_string_body (("''" +:+ Py.replace "'" "''" s) +:+ "'"))
      with (String "'" <$> read_string_body (Py.replace "'" "''" s +:+ "'")).
    by rewrite IH.
  - change (read_string_body ((String c (Py.replace "'" "''" s)) +:+ "'"))
      with (if Ascii.eqb c "'"
            then match Py.replace "'" "''" s +:+ "'" with
                 | EmptyString => Some EmptyString
                 | String c' rest' =>
                     if Ascii.eqb c' "'" then String "'" <$> read_string_body rest' else None
                 end
            else String c <$> read_string_body (Py.replace "'" "''" s +:+ "'")).
    by rewrite Hc, IH.
Qed.

(** The literal [values_to_sqlite] writes for a string is read by SQLite as
    that string: the quotes inside are doubled, and the literal ends where
    the string ends. *)
Theorem string_literal_round_trip (s : string) :
  read_string_literal (value_to_sqlite (JStr s)) = Some s.
Proof.
  unfold value_to_sqlite.
  change (read_string_literal (("'" +:+ Py.replace "'" "''" s) +:+ "'"))
    with (read_string_body (Py.replace "'" "''" s +:+ "'")).
  apply read_string_body_replace.
Qed.

Lemma read_written_string (s : string) :
  read_string_literal (value_to_sqlite (JStr s)) = Some s.
Proof. apply read_string_body_replace. Qed.

End sql_values.

Section schema_columns.
Import sqlite3 schemautil.
Context `{JsonCodec}.

(** [get_column] raises [KeyError] for a table the schema does not have;
    else it returns the first column of that name in the table's order, and
    [None] when the table has no column of that name. *)
Theorem get_column_first (tables : gmap string (list Column)) (table column : string) :
  match get_column tables table column with
  | Raise e => e = KeyError /\ tables !! table = None
  | Ok None =>
      exists cols, tables !! table = Some cols
                   /\ Forall (fun col => col_name col <> column) cols
  | Ok (Some col) =>
      exists before after,
        tables !! table = Some (before ++ col :: after)
        /\ col_name col = column
        /\ Forall (fun col' => col_name col' <> column) before
  end.
Proof.
  unfold get_column. destruct (tables !! table) as [cols|]; [|done].
  destruct (list_find _ cols) as [[i col]|] eqn:Hfind; cbn.
  - apply list_find_Some in Hfind as (Hi & Hname & Hbefore).
    exists (take i cols), (drop (S i) cols). split_and!; [|done|].
    + by rewrite take_drop_middle.
    + apply Forall_forall. intros col' Hin.
      apply list_elem_of_lookup in Hin as [j Hj].
      pose proof (lookup_lt_Some _ _ _ Hj) as Hlt. rewrite length_take in Hlt.
      rewrite lookup_take_lt in Hj by lia. apply (Hbefore j col' Hj). lia.
  - exists cols. split; [done|]. by apply list_find_None in Hfind.
Qed.


(** A list or a dict in a column without SQLite type survives the way into
    the database and back, when the codec decodes what it encodes for it and
    the encoding is not empty: [json_to_sqlite] writes the literal of its
    JSON text, and [sqlite_to_json] decodes the text the literal stores.  For
    a table of this one column the two functions compose to the value. *)
Theorem composite_column_round_trip (tables : gmap string (list Column)) (table : string)
    (items : list (string * json)) (col : Column) (v : json) :
  sqlite_type col = "" ->
  dict_get (col_name col) items = Some v ->
  (exists l, v = JList l) \/ (exists fields, v = JObj fields) ->
  json_dumps None v <> "" ->
  json_loads (json_dumps None v) = Some v ->
  (exists text,
     read_string_literal (value_to_sqlite (column_value items col)) = Some text
     /\ cell_to_json (Some col) (Text text) = Ok v)
  /\ (tables !! table = Some [col] ->
      exists literal text,
        json_to_sqlite tables (JObj items) table = Ok literal
        /\ read_string_literal literal = Some text
        /\ sqlite_to_json tables [col_name col] [[Text text]] table
           = Ok [{[ col_name col := v ]}]).
Proof.
  intros Htype Hfield Hcomposite Hnonempty Hcodec.
  assert (column_value items col = JStr (json_dumps None v)) as Hvalue.
  { unfold column_value. rewrite Hfield. by destruct Hcomposite as [[l ->]|[fields ->]]. }
  assert (cell_to_json (Some col) (Text (json_dumps None v)) = Ok v) as Hcell.
  { unfold cell_to_json. rewrite Htype. cbn.
    destruct (json_dumps None v) eqn:Hd; [done|]. cbn. by rewrite Hcodec. }
  split.
  - exists (json_dumps None v). by rewrite Hvalue, read_written_string.
  - intros Htable. exists (value_to_sqlite (JStr (json_dumps None v))), (json_dumps None v).
    split_and!.
    + unfold json_to_sqlite. rewrite Htable. cbn [fmap list_fmap]. by rewrite Hvalue.
    + apply read_written_string.
    + unfold sqlite_to_json, get_column. rewrite Htable. cbn.
      rewrite decide_True by done. cbn [fmap option_fmap option_map snd].
      by rewrite Hcell.
Qed.

(** For a column with an SQLite type, other than a [bool] column, and a
    field that is a string: the literal [json_to_sqlite] writes denotes that
    string, and [sqlite_to_json] gives the string for a cell that holds this
    text.  A field the object does not have is written as the empty string
    and read as the empty string, not as an absent field.  (What the column's
    type makes of the text when SQLite stores it is outside this
    statement.) *)
Theorem text_column_round_trip (items : list (string * json)) (col : Column) (s : string) :
  sqlite_type col <> "" ->
  fb_type col <> "bool" ->
  default (JStr "") (dict_get (col_name col) items) = JStr s ->
  exists text,
    read_string_literal (value_to_sqlite (column_value items col)) = Some text
    /\ cell_to_json (Some col) (Text text) = Ok (JStr s).
Proof.
  intros Htype Hbool Hfield. exists s. unfold column_value. rewrite Hfield. split.
  - apply read_written_string.
  - unfold cell_to_json. destruct (sqlite_type col); [done|].
    cbn. rewrite andb_false_r. by rewrite bool_decide_eq_false_2.
Qed.

(** When one object of the dataset is a dict without [id], [to_sql] raises
    [KeyError] and gives no SQL, wherever the object stands among the
    others. *)
Theorem to_sql_missing_id (self : GraphDataset) :
  Forall (fun d => exists items, d_data d = JObj items) (Py.values (data self)) ->
  Exists (fun d => exists items, d_data d = JObj items /\ dict_get "id" items = None)
         (Py.values (data self)) ->
  to_sql self = Raise KeyError.
Proof.
  intros Hdicts Hmissing. unfold to_sql.
  assert (forall ds output,
            Forall (fun d => exists items, d_data d = JObj items) ds ->
            Exists (fun d => exists items, d_data d = JObj items
                                           /\ dict_get "id" items = None) ds ->
            objects_to_sql ds output = Raise KeyError) as Hloop.
  { induction ds as [|d ds IH]; intros output Hall Hex; [by apply Exists_nil in Hex|].
    apply Forall_cons in Hall as [[items Hd] Hall]. cbn.
    unfold object_values, getitem, get. rewrite Hd.
    destruct (dict_get "id" items) as [id|] eqn:Hid; [|done]. cbn.
    apply IH; [done|]. apply Exists_cons in Hex as [(items' & Hd' & Hnone)|Hex]; [|done].
    congruence. }
  by rewrite Hloop.
Qed.

End schema_columns.


Lemma composite_column_round_trip_witness :
  let tables : gmap string (list schemautil.Column) :=
    {[ "photo" := [Fixture.album_column] ]} in
  let v := JObj [("id", JStr "3")] in
  (exists text,
     sqlite3.read_string_literal
       (schemautil.value_to_sqlite
          (schemautil.column_value Fixture.photo Fixture.album_column)) = Some text
     /\ schemautil.cell_to_json (Some Fixture.album_column) (sqlite3.Text text) = Ok v)
  /\ (tables !! "photo" = Some [Fixture.album_column] ->
      exists literal text,
        schemautil.json_to_sqlite tables (JObj Fixture.photo) "photo" = Ok literal
        /\ sqlite3.read_string_literal literal = Some text
        /\ schemautil.sqlite_to_json tables
             [schemautil.col_name Fixture.album_column] [[sqlite3.Text text]] "photo"
           = Ok [{[ schemautil.col_name Fixture.album_column := v ]}]).
Proof.
  refine (composite_column_round_trip {[ "photo" := [Fixture.album_column] ]} "photo"
            Fixture.photo Fixture.album_column (JObj [("id", JStr "3")]) _ _ _ _ _).
  - reflexivity.
  - reflexivity.
  - right. by eexists.
  - discriminate.
  - vm_compute. reflexivity.
Defined.

Lemma text_column_round_trip_witness :
  exists text,
    sqlite3.read_string_literal
      (schemautil.value_to_sqlite
         (schemautil.column_value Fixture.photo Fixture.name_column)) = Some text
    /\ schemautil.cell_to_json (Some Fixture.name_column) (sqlite3.Text text)
       = Ok (JStr "it's me").
Proof.
  refine (text_column_round_trip Fixture.photo Fixture.name_column "it's me" _ _ _).
  - discriminate.
  - discriminate.
  - reflexivity.
Defined.

Lemma to_sql_missing_id_witness :
  schemautil.to_sql Fixture.dataset_without_id = Raise KeyError.
Proof.
  assert (Py.values (schemautil.data Fixture.dataset_without_id)
          = [ {| schemautil.d_table := "user"; schemautil.d_query := "7";
                 schemautil.d_data := JObj [("username", JStr "dave")] |};
              {| schemautil.d_table := "user"; schemautil.d_query := "1";
                 schemautil.d_data := Fixture.alice |} ]) as Hvalues
    by (vm_compute; reflexivity).
  refine (to_sql_missing_id Fixture.dataset_without_id _ _); rewrite Hvalues.
  - repeat constructor; by eexists.
  - apply Exists_cons_hd. by eexists.
Defined.

(** ** Sorted items *)

Lemma str_le_spec (a b : string) : Py.str_le a b <-> String_as_OT.lt a b \/ a = b.
Proof.
  unfold Py.str_le, String_as_OT.lt.
  destruct (String_as_OT.compare_spec a b) as [Heq|Hlt|Hgt]; split; try done; auto.
  intros [Hlt| ->].
  - destruct (irreflexivity String_as_OT.lt a). by transitivity b.
  - by destruct (irreflexivity String_as_OT.lt b).
Qed.

Section sorted_items.
Context {A : Type}.

#[local] Instance key_le_total : Total (fun x y : string * A => Is_true (Py.str_le x.1 y.1)).
Proof.
  intros [a ?] [b ?]. cbn. rewrite !str_le_spec.
  destruct (String_as_OT.compare_spec a b); auto.
Qed.

#[local] Instance key_le_transitive :
  Transitive (fun x y : string * A => Is_true (Py.str_le x.1 y.1)).
Proof.
  intros [a ?] [b ?] [c ?]. cbn. rewrite !str_le_spec.
  intros [Hab| ->] [Hbc| ->]; auto. left. by transitivity b.
Qed.

Lemma sorted_items_elem (d : gmap string A) (key : string) (v : A) :
  (key, v) ∈ Py.sorted_items d <-> d !! key = Some v.
Proof.
  unfold Py.sorted_items. by rewrite merge_sort_Permutation, elem_of_map_to_list.
Qed.

Lemma sorted_items_NoDup (d : gmap string A) : NoDup (Py.sorted_items d).*1.
Proof.
  unfold Py.sorted_items. rewrite merge_sort_Permutation. apply NoDup_fst_map_to_list.
Qed.

(** The items come with their keys in strictly increasing order. *)
Lemma sorted_items_increasing (d : gmap string A) :
  StronglySorted (fun x y => String_as_OT.lt x.1 y.1) (Py.sorted_items d).
Proof.
  pose proof (sorted_items_NoDup d) as Hnd.
  assert (StronglySorted (fun x y : string * A => Is_true (Py.str_le x.1 y.1))
            (Py.sorted_items d)) as Hsorted
    by apply (StronglySorted_merge_sort _).
  induction Hsorted as [|x l Hl IH Hx]; [constructor|].
  cbn in Hnd. apply NoDup_cons in Hnd as [Hfresh Hnd].
  constructor; [by apply IH|].
  apply Forall_forall. intros y Hy. rewrite Forall_forall in Hx.
  specialize (Hx y Hy). apply str_le_spec in Hx as [Hlt|Heq]; [done|].
  destruct Hfresh. rewrite Heq. by apply list_elem_of_fmap_2.
Qed.

End sorted_items.

Section schema_to_sql.
Import schemautil.

(** [Schema.to_sql] is the [CREATE TABLE] statements of the tables of the
    schema, each table once, in strictly increasing order of the table
    names. *)
Theorem schema_to_sql_sorted (tables : gmap string (list Column)) :
  exists items,
    Schema_to_sql tables = Py.join "" (create_table <$> items)
    /\ (forall table cols, (table, cols) ∈ items <-> tables !! table = Some cols)
    /\ StronglySorted (fun x y => String_as_OT.lt x.1 y.1) items.
Proof.
  exists (Py.sorted_items tables). split_and!; [done| |].
  - apply sorted_items_elem.
  - apply sorted_items_increasing.
Qed.

End schema_to_sql.

Section fql_to_sql.
Import schemautil.
Context `{JsonCodec}.

Lemma json_to_sqlite_dict (tables : gmap string (list Column)) (table : string)
    (cols : list Column) (items : list (string * json)) :
  tables !! table = Some cols ->
  json_to_sqlite tables (JObj items) table
  = Ok (values_to_sqlite (column_value items <$> cols)).
Proof. intros Htable. unfold json_to_sqlite. rewrite Htable. by destruct cols. Qed.

Lemma fql_objects_to_sql_spec (tables : gmap string (list Column)) (table columns : string)
    (cols : list Column) (objects : list json) (output : list string) :
  tables !! table = Some cols ->
  Forall (fun object => exists items, object = JObj items) objects ->
  exists inserts,
    fql_objects_to_sql tables table columns objects output = Ok (output ++ inserts)
    /\ Forall2 (fun object statement =>
                  exists items,
                    object = JObj items
                    /\ statement
                       = fql_insert table columns
                           (values_to_sqlite (column_value items <$> cols)))
               objects inserts.
Proof.
  intros Htable. revert output.
  induction objects as [|object objects IH]; intros output Hobjects; simpl.
  - exists []. by rewrite app_nil_r.
  - apply Forall_cons in Hobjects as [[items ->] Hobjects].
    rewrite (json_to_sqlite_dict tables table cols items Htable). cbn.
    destruct (IH (output ++ [fql_insert table columns
                               (values_to_sqlite (column_value items <$> cols))])
                Hobjects) as (inserts & -> & Hall).
    eexists (_ :: inserts). rewrite <- app_assoc. split; [done|].
    constructor; [|done]. by exists items.
Qed.

(** For a dataset whose tables are all in the schema and hold lists of
    dicts, [FqlDataset.to_sql] gives [BEGIN TRANSACTION;], then for each table,
    in strictly increasing order of the names, the comment with the table and
    its query followed by one [INSERT] for each object, with the columns of
    the schema and one value for each of them, then [COMMIT;]. *)
Theorem fql_to_sql_statements (self : FqlDataset) :
  Forall (fun item =>
            exists cols objects,
              schema_tables self !! item.1 = Some cols
              /\ iterate (d_data item.2) = Ok objects
              /\ Forall (fun object => exists items, object = JObj items) objects)
         (map_to_list (fql_data self)) ->
  exists (items : list (string * Data)) (blocks : list (list string)),
    FqlDataset_to_sql self
    = Ok (Py.join newline
            (["BEGIN TRANSACTION;" +:+ newline] ++ concat blocks ++ ["COMMIT;"]))
    /\ (forall table d, (table, d) ∈ items <-> fql_data self !! table = Some d)
    /\ StronglySorted (fun x y => String_as_OT.lt x.1 y.1) items
    /\ Forall2 (fun item block =>
                  exists cols objects inserts,
                    schema_tables self !! item.1 = Some cols
                    /\ iterate (d_data item.2) = Ok objects
                    /\ block = table_comment item.1 (d_query item.2) :: inserts
                    /\ Forall2 (fun object statement =>
                                  exists fields,
                                    object = JObj fields
                                    /\ statement
                                       = fql_insert item.1 (columns_str cols)
                                           (values_to_sqlite
                                              (column_value fields <$> cols)))
                               objects inserts)
               items blocks.
Proof.
  intros Hdata. exists (Py.sorted_items (fql_data self)).
  assert (Forall (fun item =>
                    exists cols objects,
                      schema_tables self !! item.1 = Some cols
                      /\ iterate (d_data item.2) = Ok objects
                      /\ Forall (fun object => exists items, object = JObj items) objects)
                 (Py.sorted_items (fql_data self))) as Hitems.
  { unfold Py.sorted_items. by rewrite merge_sort_Permutation. }
  assert (forall items output,
            Forall (fun item =>
                      exists cols objects,
                        schema_tables self !! item.1 = Some cols
                        /\ iterate (d_data item.2) = Ok objects
                        /\ Forall (fun object => exists items, object = JObj items) objects)
                   items ->
            exists blocks,
              fql_tables_to_sql (schema_tables self) items output
              = Ok (output ++ concat blocks)
              /\ Forall2 (fun item block =>
                  exists cols objects inserts,
                    schema_tables self !! item.1 = Some cols
                    /\ iterate (d_data item.2) = Ok objects
                    /\ block = table_comment item.1 (d_query item.2) :: inserts
                    /\ Forall2 (fun object statement =>
                                  exists fields,
                                    object = JObj fields
                                    /\ statement
                                       = fql_insert item.1 (columns_str cols)
                                           (values_to_sqlite
                                              (column_value fields <$> cols)))
                               objects inserts)
               items blocks) as Hloop.
  { induction items as [|[table d] items IH]; intros output Hall; simpl.
    - exists []. by rewrite app_nil_r.
    - apply Forall_cons in Hall as [(cols & objects & Hcols & Hobjects & Hdicts) Hall].
      cbn in Hcols, Hobjects. rewrite Hcols, Hobjects. cbn.
      destruct (fql_objects_to_sql_spec (schema_tables self) table (columns_str cols) cols
                  objects (output ++ [table_comment table (d_query d)]) Hcols Hdicts)
        as (inserts & -> & Hinserts).
      cbn.
      destruct (IH ((output ++ [table_comment table (d_query d)]) ++ inserts) Hall)
        as (blocks & -> & Hblocks).
      exists ((table_comment table (d_query d) :: inserts) :: blocks). split.
      + cbn. by rewrite <- !app_assoc.
      + constructor; [|done]. by exists cols, objects, inserts. }
  destruct (Hloop _ ["BEGIN TRANSACTION;" +:+ newline] Hitems) as (blocks & Hrun & Hblocks).
  exists blocks. split_and!; [|apply sorted_items_elem|apply sorted_items_increasing|done].
  unfold FqlDataset_to_sql. by rewrite Hrun.
Qed.

End fql_to_sql.

Lemma fql_to_sql_statements_witness :
  let self := Fixture.fql_dataset in
  exists (items : list (string * schemautil.Data)) (blocks : list (list string)),
    schemautil.FqlDataset_to_sql self
    = Ok (Py.join schemautil.newline
            (["BEGIN TRANSACTION;" +:+ schemautil.newline] ++ concat blocks ++ ["COMMIT;"]))
    /\ (forall table d,
          (table, d) ∈ items <-> schemautil.fql_data self !! table = Some d)
    /\ StronglySorted (fun x y => String_as_OT.lt x.1 y.1) items
    /\ Forall2 (fun item block =>
                  exists cols objects inserts,
                    schemautil.schema_tables self !! item.1 = Some cols
                    /\ schemautil.iterate (schemautil.d_data item.2) = Ok objects
                    /\ block
                       = schemautil.table_comment item.1 (schemautil.d_query item.2)
                         :: inserts
                    /\ Forall2 (fun object statement =>
                                  exists fields,
                                    object = JObj fields
                                    /\ statement
                                       = schemautil.fql_insert item.1
                                           (schemautil.columns_str cols)
                                           (schemautil.values_to_sqlite
                                              (schemautil.column_value fields <$> cols)))
                               objects inserts)
               items blocks.
Proof.
  refine (fql_to_sql_statements Fixture.fql_dataset _).
  assert (map_to_list (schemautil.fql_data Fixture.fql_dataset)
          = [("photo",
              {| schemautil.d_table := "photo";
                 schemautil.d_query := "SELECT name, album FROM photo";
                 schemautil.d_data := JList [JObj Fixture.photo] |})]) as ->
    by apply map_to_list_singleton.
  repeat constructor.
  exists [Fixture.name_column; Fixture.album_column], [JObj Fixture.photo].
  split_and!; [reflexivity|reflexivity|].
  repeat constructor. by eexists.
Defined.
